(** * GoBarber appointment core: slot allocation and cancellation

    A shallow embedding of the three controller sources

      - [ApointmentController]  (store with self-booking check and
        provider notification, delete),
      - [ApointmentController0] (the controller variant without the
        self-booking check, notification and delete),
      - [ScheduleController]    (provider day schedule),

    together with the properties of the booking rules they implement.

    Dates are JavaScript [Date] values: integers counting milliseconds
    since the epoch.  Database tables are lists of rows in insertion
    order.  An [async] handler is a computation over the persistent
    world that ends either by sending a response or by rejecting with
    an uncaught exception; [await] is sequencing.

    What the model takes from outside the three sources:
      - ids are numbers and request dates are parsed timestamps; a body
        field that is missing or ill-typed is [None] and fails the Yup
        schema.  [Yup.number()] also accepts a JSON string that spells a
        number, and the database reads such a string as the number; the
        request records which of the two spellings [provider_id] came
        in;
      - each [new Date()] of a handler is an argument of the handler
        ([delete] reads the clock twice);
      - SQL reads and writes succeed; whether [Notification.create] and
        [Queue.add] succeed is part of the environment;
      - [exec] and [execs] handle requests one after another; two
        [store] requests overlapping at their awaits are run by
        [overlapped]. *)

From Stdlib Require Import ZArith List String Bool Lia Sorted Permutation.
Import ListNotations.

Open Scope Z_scope.

(* ------------------------------------------------------------------ *)
(** ** date-fns *)

Module DateFns.

Definition MS_PER_HOUR : Z := 3600000.
Definition MS_PER_DAY : Z := 86400000.

(** date-fns works on local time; [tz] is the offset of the server's
    zone from UTC in milliseconds. *)
Section Zone.
Variable tz : Z.

(** [date.setMinutes(0, 0, 0)] *)
Definition startOfHour (t : Z) : Z := t - (t + tz) mod MS_PER_HOUR.

(** [date.setHours(0, 0, 0, 0)] *)
Definition startOfDay (t : Z) : Z := t - (t + tz) mod MS_PER_DAY.

(** [date.setHours(23, 59, 59, 999)] *)
Definition endOfDay (t : Z) : Z := startOfDay t + (MS_PER_DAY - 1).
End Zone.

(** [date.getTime() < dateToCompare.getTime()] *)
Definition isBefore (date dateToCompare : Z) : bool := date <? dateToCompare.

Definition subHours (date amount : Z) : Z := date - amount * MS_PER_HOUR.

End DateFns.

(* ------------------------------------------------------------------ *)
(** ** Models *)

Definition isNull {A : Type} (o : option A) : bool :=
  match o with None => true | Some _ => false end.

Module User.
Record t : Type := mk
  { id : Z; name : string; email : string; provider : bool }.

Definition findOne (where_ : t -> bool) (rows : list t) : option t :=
  find where_ rows.

Definition findByPk (pk : Z) (rows : list t) : option t :=
  find (fun u => id u =? pk) rows.
End User.

Module Apointment.
Record t : Type := mk
  { id : Z; user_id : Z; provider_id : Z; date : Z; canceled_at : option Z }.

Definition set_canceled_at (a : t) (v : option Z) : t :=
  {| id := id a; user_id := user_id a; provider_id := provider_id a;
     date := date a; canceled_at := v |}.

Definition findOne (where_ : t -> bool) (rows : list t) : option t :=
  find where_ rows.

Definition findAll (where_ : t -> bool) (rows : list t) : list t :=
  filter where_ rows.

Definition findByPk (pk : Z) (rows : list t) : option t :=
  find (fun a => id a =? pk) rows.

(** [UPDATE ... WHERE id = a.id] *)
Definition save (a : t) (rows : list t) : list t :=
  map (fun r => if id r =? id a then a else r) rows.

(** An instance loaded with [include: [provider, user]]: of the provider
    the attributes [name] and [email], of the user the attribute [name];
    a missing associated row loads as null. *)
Record loaded : Type := mkLoaded
  { row : t; provider : option (string * string); user : option string }.
End Apointment.

Module Notification.
Record t : Type := mk { content : string; user : Z }.
End Notification.

Module Queue.
Inductive key : Type := CancellationMail.
Record job : Type := mk { job_key : key; appointment : Apointment.loaded }.
End Queue.

(* ------------------------------------------------------------------ *)
(** ** The world and the handler monad *)

Record World : Type := mkWorld
  { users : list User.t;
    apointments : list Apointment.t;
    next_id : Z;                          (* the primary-key sequence *)
    notifications : list Notification.t;
    jobs : list Queue.job }.

(** What a single invocation finds around it: the server's zone, the
    locale-aware date formatter, and whether the notification store and
    the job queue accept a write. *)
Record Env : Type := mkEnv
  { tz : Z;
    format : Z -> string;
    notification_up : bool;
    queue_up : bool }.

Record Request : Type := mkRequest
  { userId : Z;                    (* set by the auth middleware *)
    body_provider_id : option Z;   (* None: missing or not a number *)
    provider_id_is_string : bool;  (* the body spells the number as a string *)
    body_date : option Z;          (* None: missing or not a date *)
    params_id : Z;
    query_date : Z }.

Inductive Exn : Type :=
| TypeError (msg : string)
| NotificationError
| QueueError.

Inductive Json : Type :=
| JError (error : string)
| JApointment (a : Apointment.t)
| JLoaded (a : Apointment.loaded)
| JList (l : list Apointment.t).

Inductive Outcome : Type :=
| Responded (status : Z) (body : Json)
| Rejected (e : Exn).

(** A handler step either goes on with a value or has finished the
    request. *)
Definition handler (A : Type) : Type := World -> World * (A + Outcome).

Definition ret {A} (a : A) : handler A := fun w => (w, inl a).

Definition bind {A B} (m : handler A) (k : A -> handler B) : handler B :=
  fun w =>
    match m w with
    | (w', inl a) => k a w'
    | (w', inr o) => (w', inr o)
    end.

Declare Scope handler_scope.
Delimit Scope handler_scope with handler.
Notation "x <- m ;; k" := (bind m (fun x => k))
  (at level 61, m at next level, right associativity) : handler_scope.
Notation "m ;; k" := (bind m (fun _ => k))
  (at level 61, right associativity) : handler_scope.
Open Scope handler_scope.

(** [return res.status(s).json(b)] *)
Definition respond {A} (status : Z) (body : Json) : handler A :=
  fun w => (w, inr (Responded status body)).

Definition throw {A} (e : Exn) : handler A :=
  fun w => (w, inr (Rejected e)).

(** [if (c) { return res.status(s).json(b); }] *)
Definition return_if (c : bool) (status : Z) (body : Json) : handler unit :=
  if c then respond status body else ret tt.

(** Reading a property of a possibly null value. *)
Definition deref {A} (msg : string) (o : option A) : handler A :=
  match o with
  | Some a => ret a
  | None => throw (TypeError msg)
  end.

Definition query {A} (f : World -> A) : handler A := fun w => (w, inl (f w)).

Definition run (h : handler Empty_set) (w : World) : World * Outcome :=
  match h w with
  | (w', inr o) => (w', o)
  | (_, inl e) => match e with end
  end.

(** *** Persistence operations *)

Definition User_findOne (where_ : User.t -> bool) : handler (option User.t) :=
  query (fun w => User.findOne where_ (users w)).

Definition User_findByPk (pk : Z) : handler (option User.t) :=
  query (fun w => User.findByPk pk (users w)).

Definition Apointment_findOne (where_ : Apointment.t -> bool)
  : handler (option Apointment.t) :=
  query (fun w => Apointment.findOne where_ (apointments w)).

Definition Apointment_findAll (where_ : Apointment.t -> bool)
  : handler (list Apointment.t) :=
  query (fun w => Apointment.findAll where_ (apointments w)).

Definition load (us : list User.t) (a : Apointment.t) : Apointment.loaded :=
  {| Apointment.row := a;
     Apointment.provider :=
       option_map (fun u => (User.name u, User.email u))
                  (User.findByPk (Apointment.provider_id a) us);
     Apointment.user :=
       option_map User.name (User.findByPk (Apointment.user_id a) us) |}.

(** [findByPk(pk, { include: [provider, user] })] *)
Definition Apointment_findByPk_include (pk : Z)
  : handler (option Apointment.loaded) :=
  query (fun w =>
           option_map (load (users w))
                      (Apointment.findByPk pk (apointments w))).

Definition Apointment_create (user_id provider_id date : Z)
  : handler Apointment.t :=
  fun w =>
    let a := {| Apointment.id := next_id w;
                Apointment.user_id := user_id;
                Apointment.provider_id := provider_id;
                Apointment.date := date;
                Apointment.canceled_at := None |} in
    ({| users := users w;
        apointments := apointments w ++ [a];
        next_id := next_id w + 1;
        notifications := notifications w;
        jobs := jobs w |}, inl a).

Definition Apointment_save (a : Apointment.t) : handler unit :=
  fun w =>
    ({| users := users w;
        apointments := Apointment.save a (apointments w);
        next_id := next_id w;
        notifications := notifications w;
        jobs := jobs w |}, inl tt).

Definition Notification_create (env : Env) (n : Notification.t)
  : handler unit :=
  fun w =>
    if notification_up env then
      ({| users := users w;
          apointments := apointments w;
          next_id := next_id w;
          notifications := notifications w ++ [n];
          jobs := jobs w |}, inl tt)
    else (w, inr (Rejected NotificationError)).

Definition Queue_add (env : Env) (k : Queue.key) (a : Apointment.loaded)
  : handler unit :=
  fun w =>
    if queue_up env then
      ({| users := users w;
          apointments := apointments w;
          next_id := next_id w;
          notifications := notifications w;
          jobs := jobs w ++ [ {| Queue.job_key := k; Queue.appointment := a |} ] |},
       inl tt)
    else (w, inr (Rejected QueueError)).

(* ------------------------------------------------------------------ *)
(** ** Controllers *)

Definition slot_where (provider_id hourStart : Z) (a : Apointment.t) : bool :=
  (Apointment.provider_id a =? provider_id)
  && isNull (Apointment.canceled_at a)
  && (Apointment.date a =? hourStart).

Definition provider_where (pk : Z) (u : User.t) : bool :=
  (User.id u =? pk) && User.provider u.

(** [provider_id !== req.userId] on the value as the body carries it:
    [req.userId] is a number, and a string is never strictly equal to a
    number. *)
Definition strict_neq (req : Request) (provider_id : Z) : bool :=
  provider_id_is_string req || negb (provider_id =? userId req).

Module ApointmentController.
Import DateFns.

Definition store (env : Env) (req : Request) (now : Z) : handler Empty_set :=
  match body_provider_id req, body_date req with
  | Some provider_id, Some date =>
      isProvider <- User_findOne (provider_where provider_id) ;;
      return_if (isNull isProvider) 401
        (JError "You can only create apointments with providers") ;;
      return_if (negb (strict_neq req provider_id)) 400
        (JError "You can't schedule an appointment with yourself.") ;;
      let hourStart := startOfHour (tz env) date in
      return_if (isBefore hourStart now) 400
        (JError "Past dates are not permited") ;;
      checkAvailability <- Apointment_findOne (slot_where provider_id hourStart) ;;
      return_if (negb (isNull checkAvailability)) 400
        (JError "Apointment date is not available.") ;;
      apointment <- Apointment_create (userId req) provider_id hourStart ;;
      user <- User_findByPk (userId req) ;;
      let formattedDate := format env hourStart in
      u <- deref "Cannot read property 'name' of null" user ;;
      Notification_create env
        {| Notification.content :=
             ("Novo agendamento de " ++ User.name u ++ " para " ++ formattedDate)%string;
           Notification.user := provider_id |} ;;
      respond 200 (JApointment apointment)
  | _, _ => respond 400 (JError "Validation fails")
  end.

Definition delete (env : Env) (req : Request) (now now' : Z)
  : handler Empty_set :=
  appointment <- Apointment_findByPk_include (params_id req) ;;
  a <- deref "Cannot read property 'user_id' of null" appointment ;;
  return_if (negb (Apointment.user_id (Apointment.row a) =? userId req)) 401
    (JError "You don't have permission to cancel this appointment.") ;;
  let dateWithSub := subHours (Apointment.date (Apointment.row a)) 2 in
  return_if (isBefore dateWithSub now) 401
    (JError "You can only cancel appointments 2 hours in advance.") ;;
  let a' := {| Apointment.row :=
                 Apointment.set_canceled_at (Apointment.row a) (Some now');
               Apointment.provider := Apointment.provider a;
               Apointment.user := Apointment.user a |} in
  Apointment_save (Apointment.row a') ;;
  Queue_add env Queue.CancellationMail a' ;;
  respond 200 (JLoaded a').

End ApointmentController.

Module ApointmentController0.
Import DateFns.

Definition store (env : Env) (req : Request) (now : Z) : handler Empty_set :=
  match body_provider_id req, body_date req with
  | Some provider_id, Some date =>
      isProvider <- User_findOne (provider_where provider_id) ;;
      return_if (isNull isProvider) 401
        (JError "You can only create apointments with providers") ;;
      let hourStart := startOfHour (tz env) date in
      return_if (isBefore hourStart now) 400
        (JError "Past dates are not permited") ;;
      checkAvailability <- Apointment_findOne (slot_where provider_id hourStart) ;;
      return_if (negb (isNull checkAvailability)) 400
        (JError "Apointment date is not availabel.") ;;
      apointment <- Apointment_create (userId req) provider_id hourStart ;;
      respond 200 (JApointment apointment)
  | _, _ => respond 400 (JError "Validation fails")
  end.

End ApointmentController0.

Module ScheduleController.
Import DateFns.

(** [{ [Op.between]: [lo, hi] }]: SQL BETWEEN, both ends included. *)
Definition between (lo hi x : Z) : bool := (lo <=? x) && (x <=? hi).

Definition day_where (env : Env) (req : Request) (a : Apointment.t) : bool :=
  let parsedDate := query_date req in
  (Apointment.provider_id a =? userId req)
  && isNull (Apointment.canceled_at a)
  && between (startOfDay (tz env) parsedDate) (endOfDay (tz env) parsedDate)
             (Apointment.date a).

Definition index (env : Env) (req : Request) : handler Empty_set :=
  checkUserProvider <- User_findOne (provider_where (userId req)) ;;
  return_if (isNull checkUserProvider) 400
    (JError "User is not a provider") ;;
  apointments <- Apointment_findAll (day_where env req) ;;
  respond 200 (JList apointments).

End ScheduleController.

(* ------------------------------------------------------------------ *)
(** ** Requests in sequence *)

Inductive Call : Type :=
| Store (env : Env) (req : Request) (now : Z)
| Store0 (env : Env) (req : Request) (now : Z)
| Delete (env : Env) (req : Request) (now now' : Z)
| Schedule (env : Env) (req : Request).

(** One request handled from its first line to its response, with no
    other request running in between; [execs] handles a list of requests
    one after another. *)
Definition exec (c : Call) (w : World) : World * Outcome :=
  match c with
  | Store env req now => run (ApointmentController.store env req now) w
  | Store0 env req now => run (ApointmentController0.store env req now) w
  | Delete env req now now' => run (ApointmentController.delete env req now now') w
  | Schedule env req => run (ScheduleController.index env req) w
  end.

Definition execs (cs : list Call) (w : World) : World :=
  fold_left (fun w c => fst (exec c w)) cs w.

(** ** Two [store] requests overlapping *)

(** An [async] handler gives way at each [await].  [store] awaits the
    availability query and then, with no transaction around the two,
    [Apointment.create]: another request can run in between.  The
    handler is cut at that point. *)
Module Overlap.
Import DateFns.

(** [store] from the schema up to the availability check: reads only.
    It goes on with the [provider_id] and the [hourStart] it computed. *)
Definition store_checks (env : Env) (req : Request) (now : Z) : handler (Z * Z) :=
  match body_provider_id req, body_date req with
  | Some provider_id, Some date =>
      isProvider <- User_findOne (provider_where provider_id) ;;
      return_if (isNull isProvider) 401
        (JError "You can only create apointments with providers") ;;
      return_if (negb (strict_neq req provider_id)) 400
        (JError "You can't schedule an appointment with yourself.") ;;
      let hourStart := startOfHour (tz env) date in
      return_if (isBefore hourStart now) 400
        (JError "Past dates are not permited") ;;
      checkAvailability <- Apointment_findOne (slot_where provider_id hourStart) ;;
      return_if (negb (isNull checkAvailability)) 400
        (JError "Apointment date is not available.") ;;
      ret (provider_id, hourStart)
  | _, _ => respond 400 (JError "Validation fails")
  end.

(** [store] from [Apointment.create] to the response. *)
Definition store_writes (env : Env) (req : Request) (provider_id hourStart : Z)
  : handler Empty_set :=
  apointment <- Apointment_create (userId req) provider_id hourStart ;;
  user <- User_findByPk (userId req) ;;
  let formattedDate := format env hourStart in
  u <- deref "Cannot read property 'name' of null" user ;;
  Notification_create env
    {| Notification.content :=
         ("Novo agendamento de " ++ User.name u ++ " para " ++ formattedDate)%string;
       Notification.user := provider_id |} ;;
  respond 200 (JApointment apointment).

(** Two [store] requests overlap: the first runs its checks, the second
    runs its checks before the first has created anything, then each
    goes on to write.  The outcomes are the first's and the second's. *)
Definition overlapped (env1 : Env) (req1 : Request) (now1 : Z)
           (env2 : Env) (req2 : Request) (now2 : Z) (w : World)
  : World * (Outcome * Outcome) :=
  match store_checks env1 req1 now1 w with
  | (wa, inr o1) =>
      let (wb, o2) := run (ApointmentController.store env2 req2 now2) wa in
      (wb, (o1, o2))
  | (wa, inl (p1, h1)) =>
      match store_checks env2 req2 now2 wa with
      | (wb, inr o2) =>
          let (wc, o1) := run (store_writes env1 req1 p1 h1) wb in
          (wc, (o1, o2))
      | (wb, inl (p2, h2)) =>
          let (wc, o1) := run (store_writes env1 req1 p1 h1) wb in
          let (wd, o2) := run (store_writes env2 req2 p2 h2) wc in
          (wd, (o1, o2))
      end
  end.

End Overlap.

(** ** Vocabulary of the properties *)

(** The row [Apointment.create] inserts in world [w], and the worlds
    after each kind of write. *)
Definition created (w : World) (user_id provider_id date : Z) : Apointment.t :=
  {| Apointment.id := next_id w;
     Apointment.user_id := user_id;
     Apointment.provider_id := provider_id;
     Apointment.date := date;
     Apointment.canceled_at := None |}.

Definition with_created (w : World) (a : Apointment.t) : World :=
  {| users := users w;
     apointments := apointments w ++ [a];
     next_id := next_id w + 1;
     notifications := notifications w;
     jobs := jobs w |}.

Definition with_saved (w : World) (a : Apointment.t) : World :=
  {| users := users w;
     apointments := Apointment.save a (apointments w);
     next_id := next_id w;
     notifications := notifications w;
     jobs := jobs w |}.

Definition with_notification (w : World) (n : Notification.t) : World :=
  {| users := users w;
     apointments := apointments w;
     next_id := next_id w;
     notifications := notifications w ++ [n];
     jobs := jobs w |}.

Definition with_job (w : World) (j : Queue.job) : World :=
  {| users := users w;
     apointments := apointments w;
     next_id := next_id w;
     notifications := notifications w;
     jobs := jobs w ++ [j] |}.

(** The error bodies, by the name the specification gives them. *)
Definition ValidationFails : Outcome :=
  Responded 400 (JError "Validation fails").
Definition NotAProvider : Outcome :=
  Responded 401 (JError "You can only create apointments with providers").
Definition SelfBookingNotAllowed : Outcome :=
  Responded 400 (JError "You can't schedule an appointment with yourself.").
Definition PastDate : Outcome :=
  Responded 400 (JError "Past dates are not permited").
Definition SlotUnavailable : Outcome :=
  Responded 400 (JError "Apointment date is not available.").
Definition NotOwner : Outcome :=
  Responded 401 (JError "You don't have permission to cancel this appointment.").
Definition TooLateToCancel : Outcome :=
  Responded 401 (JError "You can only cancel appointments 2 hours in advance.").

Definition is_error (o : Outcome) : bool :=
  match o with
  | Responded _ (JError _) => true
  | Responded _ _ => false
  | Rejected _ => false
  end.

(** Number of active bookings of a provider at a date. *)
Definition active_at (provider_id date : Z) (rows : list Apointment.t) : nat :=
  List.length (filter (slot_where provider_id date) rows).

Definition slot_unique (rows : list Apointment.t) : Prop :=
  forall provider_id date, (active_at provider_id date rows <= 1)%nat.

(** The tail of [store] after [Apointment.create]: look the requester
    up, notify the provider, answer. *)
Definition store_notify (env : Env) (req : Request) (w1 : World)
           (a : Apointment.t) : World * Outcome :=
  match User.findByPk (userId req) (users w1) with
  | None => (w1, Rejected (TypeError "Cannot read property 'name' of null"))
  | Some u =>
      if notification_up env then
        (with_notification w1
           {| Notification.content :=
                ("Novo agendamento de " ++ User.name u ++ " para "
                   ++ format env (Apointment.date a))%string;
              Notification.user := Apointment.provider_id a |},
         Responded 200 (JApointment a))
      else (w1, Rejected NotificationError)
  end.

(** The instance [delete] saves, enqueues and answers with. *)
Definition canceled (us : list User.t) (a : Apointment.t) (now' : Z)
  : Apointment.loaded :=
  {| Apointment.row := Apointment.set_canceled_at a (Some now');
     Apointment.provider :=
       option_map (fun u => (User.name u, User.email u))
                  (User.findByPk (Apointment.provider_id a) us);
     Apointment.user :=
       option_map User.name (User.findByPk (Apointment.user_id a) us) |}.

(* ------------------------------------------------------------------ *)
(** ** What a request can do to the appointments table *)

Inductive table_step (w : World) : list Apointment.t -> Prop :=
| step_same :
    table_step w (apointments w)
| step_created user_id p h :
    Apointment.findOne (slot_where p h) (apointments w) = None ->
    table_step w (apointments w ++ [created w user_id p h])
| step_canceled a now' :
    Apointment.findByPk (Apointment.id a) (apointments w) = Some a ->
    table_step w
      (Apointment.save (Apointment.set_canceled_at a (Some now')) (apointments w)).

(** A row is never deleted, its identity and slot never change, and a
    cancellation is never undone. *)
Definition kept (r r' : Apointment.t) : Prop :=
  Apointment.id r' = Apointment.id r
  /\ Apointment.user_id r' = Apointment.user_id r
  /\ Apointment.provider_id r' = Apointment.provider_id r
  /\ Apointment.date r' = Apointment.date r
  /\ (Apointment.canceled_at r <> None -> Apointment.canceled_at r' <> None).

Definition keeps (pk : Z) (r : Apointment.t) (rows : list Apointment.t) : Prop :=
  exists r', Apointment.findByPk pk rows = Some r' /\ kept r r'.

(* ------------------------------------------------------------------ *)
(** ** Accepted requests *)

(** All checks of [store] pass: valid body, target is a provider, the
    self-booking check does not fire, hour not before [now], slot free. *)
Definition store_accepts (env : Env) (req : Request) (now : Z) (w : World) : bool :=
  match body_provider_id req, body_date req with
  | Some p, Some d =>
      let h := DateFns.startOfHour (tz env) d in
      negb (isNull (User.findOne (provider_where p) (users w)))
      && strict_neq req p
      && negb (h <? now)
      && isNull (Apointment.findOne (slot_where p h) (apointments w))
  | _, _ => false
  end.

(** All checks of [delete] pass on the stored booking. *)
Definition delete_accepts (req : Request) (now : Z) (w : World) : bool :=
  match Apointment.findByPk (params_id req) (apointments w) with
  | Some a =>
      (Apointment.user_id a =? userId req)
      && negb (DateFns.subHours (Apointment.date a) 2 <? now)
  | None => false
  end.

(** The caller's row exists and carries the provider flag. *)
Definition flagged_provider (pk : Z) (us : list User.t) : Prop :=
  exists u, In u us /\ User.id u = pk /\ User.provider u = true.

(** The booking belongs to the caller's schedule of the queried day. *)
Definition on_schedule (env : Env) (req : Request) (a : Apointment.t) : Prop :=
  Apointment.provider_id a = userId req
  /\ Apointment.canceled_at a = None
  /\ DateFns.startOfDay (tz env) (query_date req) <= Apointment.date a
     <= DateFns.endOfDay (tz env) (query_date req).

(* ------------------------------------------------------------------ *)
(** ** A small instance *)

Module Sample.
Definition hour : Z := DateFns.MS_PER_HOUR.

Definition barber : User.t :=
  {| User.id := 1; User.name := "Barber"; User.email := "barber@gobarber.com";
     User.provider := true |}.
Definition client : User.t :=
  {| User.id := 2; User.name := "Client"; User.email := "client@gobarber.com";
     User.provider := false |}.

Definition w0 : World :=
  {| users := [barber; client]; apointments := []; next_id := 1;
     notifications := []; jobs := [] |}.

Definition env (notification queue : bool) : Env :=
  {| tz := 0; format := fun _ => "dia 01 de janeiro"%string;
     notification_up := notification; queue_up := queue |}.

Definition up : Env := env true true.

(** [POST /apointments] by [user] for [provider_id] at [date]. *)
Definition post (user provider_id date : Z) : Request :=
  {| userId := user; body_provider_id := Some provider_id;
     provider_id_is_string := false;
     body_date := Some date; params_id := 0; query_date := 0 |}.

(** The same with [provider_id] sent as a string. *)
Definition post_string (user provider_id date : Z) : Request :=
  {| userId := user; body_provider_id := Some provider_id;
     provider_id_is_string := true;
     body_date := Some date; params_id := 0; query_date := 0 |}.

(** [DELETE /apointments/:id] by [user]. *)
Definition del (user id : Z) : Request :=
  {| userId := user; body_provider_id := None; provider_id_is_string := false;
     body_date := None; params_id := id; query_date := 0 |}.

(** The client's booking with the barber at hour 10, made at time 0. *)
Definition booked : Apointment.t :=
  {| Apointment.id := 1; Apointment.user_id := 2; Apointment.provider_id := 1;
     Apointment.date := 10 * hour; Apointment.canceled_at := None |}.

Definition w1 : World :=
  fst (exec (Store up (post 2 1 (10 * hour + 300000)) 0) w0).

End Sample.

(* ------------------------------------------------------------------ *)
(** ** The requester's list of appointments *)

Module File.
Record t : Type := mk { id : Z; path : string; url : string }.
End File.

(** [ApointmentController.index] of both controller variants: the
    caller's active appointments, ordered by date, twenty per page, each
    with its provider and the provider's avatar.

    The avatar association of a user and the virtual attributes [past]
    and [cancelable] belong to the models; they are arguments here. *)
Module ApointmentIndex.

Record provider_item : Type := mkProvider
  { provider_id : Z; provider_name : string; avatar : option File.t }.

(** What [attributes: ['id', 'date']] and the [provider] include leave of
    a row. *)
Record item : Type := mkItem
  { id : Z; date : Z; provider : option provider_item }.

(** The same with [attributes: ['past', 'cancelable', 'id', 'date']]. *)
Record item1 : Type := mkItem1
  { past : bool; cancelable : bool; base : item }.

(** [where: { user_id: req.userId, canceled_at: null }] *)
Definition where_ (req : Request) (a : Apointment.t) : bool :=
  (Apointment.user_id a =? userId req) && isNull (Apointment.canceled_at a).

(** [order: ['date']]: ascending by date.  The database may return rows
    of equal date in any order, and need not repeat that order on the
    next query; this sort, which keeps them in table order, is one of
    the orders it may return.  [index0_by] and [index_by] below take the
    order of each query as an argument. *)
Fixpoint insert_by_date (a : Apointment.t) (l : list Apointment.t)
  : list Apointment.t :=
  match l with
  | [] => [a]
  | x :: l' =>
      if Apointment.date a <=? Apointment.date x then a :: l
      else x :: insert_by_date a l'
  end.

Definition order_by_date (l : list Apointment.t) : list Apointment.t :=
  fold_right insert_by_date [] l.

Definition by_date (a b : Apointment.t) : Prop :=
  Apointment.date a <= Apointment.date b.

(** The caller's active appointments in date order. *)
Definition listed (req : Request) (w : World) : list Apointment.t :=
  order_by_date (filter (where_ req) (apointments w)).

(** [const { page = 1 } = req.query] *)
Definition page_of (query_page : option Z) : Z :=
  match query_page with
  | Some page => page
  | None => 1
  end.

(** [findAll({ where, order: ['date'], limit, offset })]; the database
    refuses a negative offset and the query is rejected. *)
Definition findAll_page (where_ : Apointment.t -> bool) (limit offset : Z)
           (rows : list Apointment.t) : option (list Apointment.t) :=
  if offset <? 0 then None
  else Some (firstn (Z.to_nat limit)
               (skipn (Z.to_nat offset) (order_by_date (filter where_ rows)))).

Definition include_provider (avatars : Z -> option File.t) (us : list User.t)
           (a : Apointment.t) : option provider_item :=
  option_map
    (fun u => {| provider_id := User.id u; provider_name := User.name u;
                 avatar := avatars (User.id u) |})
    (User.findByPk (Apointment.provider_id a) us).

Definition to_item (avatars : Z -> option File.t) (us : list User.t)
           (a : Apointment.t) : item :=
  {| id := Apointment.id a; date := Apointment.date a;
     provider := include_provider avatars us a |}.

(** The rows of the caller's page; [None] when the query is rejected. *)
Definition page_rows (req : Request) (query_page : option Z) (w : World)
  : option (list Apointment.t) :=
  let page := page_of query_page in
  findAll_page (where_ req) 20 ((page - 1) * 20) (apointments w).

(** [index] of the controller variant without virtual attributes: the
    body of the 200 response, or [None] when the handler rejects. *)
Definition index0 (avatars : Z -> option File.t) (req : Request)
           (query_page : option Z) (w : World) : option (list item) :=
  option_map (map (to_item avatars (users w))) (page_rows req query_page w).

(** [index] of the controller with [past] and [cancelable]. *)
Definition index (avatars : Z -> option File.t)
           (past_of cancelable_of : Apointment.t -> bool) (req : Request)
           (query_page : option Z) (w : World) : option (list item1) :=
  option_map
    (map (fun a => {| past := past_of a; cancelable := cancelable_of a;
                      base := to_item avatars (users w) a |}))
    (page_rows req query_page w).

(** What a query may answer to [order: ['date']]: for every list the
    same rows, in ascending date order. *)
Definition date_order (order : list Apointment.t -> list Apointment.t) : Prop :=
  forall l, Permutation (order l) l /\ StronglySorted by_date (order l).

(** [findAll_page], [page_rows] and the two [index] handlers when the
    database answers the query in the order [order]. *)
Definition findAll_page_by (order : list Apointment.t -> list Apointment.t)
           (where_ : Apointment.t -> bool) (limit offset : Z)
           (rows : list Apointment.t) : option (list Apointment.t) :=
  if offset <? 0 then None
  else Some (firstn (Z.to_nat limit)
               (skipn (Z.to_nat offset) (order (filter where_ rows)))).

Definition page_rows_by (order : list Apointment.t -> list Apointment.t)
           (req : Request) (query_page : option Z) (w : World)
  : option (list Apointment.t) :=
  let page := page_of query_page in
  findAll_page_by order (where_ req) 20 ((page - 1) * 20) (apointments w).

Definition index0_by (order : list Apointment.t -> list Apointment.t)
           (avatars : Z -> option File.t) (req : Request)
           (query_page : option Z) (w : World) : option (list item) :=
  option_map (map (to_item avatars (users w)))
             (page_rows_by order req query_page w).

Definition index_by (order : list Apointment.t -> list Apointment.t)
           (avatars : Z -> option File.t)
           (past_of cancelable_of : Apointment.t -> bool) (req : Request)
           (query_page : option Z) (w : World) : option (list item1) :=
  option_map
    (map (fun a => {| past := past_of a; cancelable := cancelable_of a;
                      base := to_item avatars (users w) a |}))
    (page_rows_by order req query_page w).

(** A page of the caller's list: at most twenty items, in date order,
    each one an active appointment of the caller. *)
Definition well_listed (avatars : Z -> option File.t) (req : Request)
           (w : World) (l : list item) : Prop :=
  (List.length l <= 20)%nat
  /\ StronglySorted (fun i j => date i <= date j) l
  /\ forall i, In i l ->
               exists a, In a (apointments w)
                         /\ Apointment.user_id a = userId req
                         /\ Apointment.canceled_at a = None
                         /\ i = to_item avatars (users w) a.

End ApointmentIndex.

(** Every stored id is below the primary-key sequence. *)
Definition ids_fresh (w : World) : Prop :=
  forall a, In a (apointments w) -> Apointment.id a < next_id w.

(** [GET /apointments] and [GET /schedule] requests of the sample. *)
Module SampleList.
Definition get (user : Z) (date : Z) : Request :=
  {| userId := user; body_provider_id := None; provider_id_is_string := false;
     body_date := None; params_id := 0; query_date := date |}.

Definition no_avatar : Z -> option File.t := fun _ => None.

(** A second booking of the client with the barber, at hour 11. *)
Definition booked2 : Apointment.t :=
  {| Apointment.id := 2; Apointment.user_id := 2; Apointment.provider_id := 1;
     Apointment.date := 11 * Sample.hour; Apointment.canceled_at := None |}.

Definition w2 : World :=
  fst (exec (Store Sample.up (Sample.post 2 1 (11 * Sample.hour)) 0) Sample.w1).

(** The world after the client has cancelled the first booking. *)
Definition w3 : World :=
  fst (exec (Delete Sample.up (Sample.del 2 1) 0 1) w2).

(** Twenty-one bookings of the client with the barber, the latest hour
    stored first. *)
Definition busy : World :=
  {| users := users Sample.w0;
     apointments :=
       map (fun n =>
              {| Apointment.id := Z.of_nat n; Apointment.user_id := 2;
                 Apointment.provider_id := 1;
                 Apointment.date := (100 - Z.of_nat n) * Sample.hour;
                 Apointment.canceled_at := None |})
           (seq 1 21);
     next_id := 22; notifications := []; jobs := [] |}.
End SampleList.

(* ------------------------------------------------------------------ *)
(** ** Unfolding the handlers *)

Section Unfold.
Import DateFns.

Lemma store_unfold env req now w p d :
  body_provider_id req = Some p ->
  body_date req = Some d ->
  run (ApointmentController.store env req now) w =
    if isNull (User.findOne (provider_where p) (users w)) then (w, NotAProvider)
    else if negb (strict_neq req p) then (w, SelfBookingNotAllowed)
    else if startOfHour (tz env) d <? now then (w, PastDate)
    else if isNull (Apointment.findOne (slot_where p (startOfHour (tz env) d))
                                       (apointments w))
    then let a := created w (userId req) p (startOfHour (tz env) d) in
         store_notify env req (with_created w a) a
    else (w, SlotUnavailable).
Proof.
  intros Hp Hd.
  unfold run, ApointmentController.store. rewrite Hp, Hd.
  unfold bind, User_findOne, Apointment_findOne, query, return_if, isBefore.
  destruct (isNull (User.findOne _ (users w))); [reflexivity|].
  cbn [ret].
  destruct (strict_neq req p); cbn [negb]; [|reflexivity].
  cbn [negb ret].
  destruct (startOfHour (tz env) d <? now); [reflexivity|].
  cbn [ret].
  destruct (isNull (Apointment.findOne _ (apointments w))); [|reflexivity].
  cbn [negb ret].
  unfold store_notify, Apointment_create, User_findByPk, query, deref,
    Notification_create, with_created, with_notification, created.
  cbn [users apointments next_id notifications jobs].
  destruct (User.findByPk (userId req) (users w)); [|reflexivity].
  cbn [ret Apointment.date Apointment.provider_id].
  destruct (notification_up env); reflexivity.
Qed.

Lemma store_invalid env req now w :
  body_provider_id req = None \/ body_date req = None ->
  run (ApointmentController.store env req now) w = (w, ValidationFails).
Proof.
  unfold run, ApointmentController.store.
  destruct (body_provider_id req), (body_date req); intros [H|H];
    try discriminate; reflexivity.
Qed.

Lemma store0_unfold env req now w p d :
  body_provider_id req = Some p ->
  body_date req = Some d ->
  run (ApointmentController0.store env req now) w =
    if isNull (User.findOne (provider_where p) (users w)) then (w, NotAProvider)
    else if startOfHour (tz env) d <? now then (w, PastDate)
    else if isNull (Apointment.findOne (slot_where p (startOfHour (tz env) d))
                                       (apointments w))
    then let a := created w (userId req) p (startOfHour (tz env) d) in
         (with_created w a, Responded 200 (JApointment a))
    else (w, Responded 400 (JError "Apointment date is not availabel.")).
Proof.
  intros Hp Hd.
  unfold run, ApointmentController0.store. rewrite Hp, Hd.
  unfold bind, User_findOne, Apointment_findOne, query, return_if, isBefore.
  destruct (isNull (User.findOne _ (users w))); [reflexivity|].
  cbn [ret].
  destruct (startOfHour (tz env) d <? now); [reflexivity|].
  cbn [ret].
  destruct (isNull (Apointment.findOne _ (apointments w))); reflexivity.
Qed.

Lemma store0_invalid env req now w :
  body_provider_id req = None \/ body_date req = None ->
  run (ApointmentController0.store env req now) w = (w, ValidationFails).
Proof.
  unfold run, ApointmentController0.store.
  destruct (body_provider_id req), (body_date req); intros [H|H];
    try discriminate; reflexivity.
Qed.

Lemma delete_unfold env req now now' w :
  run (ApointmentController.delete env req now now') w =
    match Apointment.findByPk (params_id req) (apointments w) with
    | None => (w, Rejected (TypeError "Cannot read property 'user_id' of null"))
    | Some a =>
        if negb (Apointment.user_id a =? userId req) then (w, NotOwner)
        else if subHours (Apointment.date a) 2 <? now then (w, TooLateToCancel)
        else
          let a' := canceled (users w) a now' in
          let w1 := with_saved w (Apointment.row a') in
          if queue_up env then
            (with_job w1 {| Queue.job_key := Queue.CancellationMail;
                           Queue.appointment := a' |},
             Responded 200 (JLoaded a'))
          else (w1, Rejected QueueError)
    end.
Proof.
  unfold run, ApointmentController.delete.
  unfold bind, Apointment_findByPk_include, query, return_if, isBefore, deref.
  destruct (Apointment.findByPk (params_id req) (apointments w)) as [a|];
    [|reflexivity].
  cbn [option_map ret load Apointment.row Apointment.provider Apointment.user].
  destruct (negb (Apointment.user_id a =? userId req)); [reflexivity|].
  cbn [ret].
  destruct (subHours (Apointment.date a) 2 <? now); [reflexivity|].
  cbn [ret].
  unfold Apointment_save, Queue_add, with_saved, with_job, canceled.
  cbn [users apointments next_id notifications jobs Apointment.row].
  destruct (queue_up env); reflexivity.
Qed.

Lemma index_unfold env req w :
  run (ScheduleController.index env req) w =
    if isNull (User.findOne (provider_where (userId req)) (users w))
    then (w, Responded 400 (JError "User is not a provider"))
    else (w, Responded 200
               (JList (Apointment.findAll (ScheduleController.day_where env req)
                                          (apointments w)))).
Proof.
  unfold run, ScheduleController.index.
  unfold bind, User_findOne, Apointment_findAll, query, return_if.
  destruct (isNull (User.findOne _ (users w))); reflexivity.
Qed.
End Unfold.

(* ------------------------------------------------------------------ *)
(** ** Time rules *)

Section TimeRules.
Import DateFns.
Variable zone : Z.

Lemma startOfHour_aligned t : (startOfHour zone t + zone) mod MS_PER_HOUR = 0.
Proof.
  unfold startOfHour.
  replace (t - (t + zone) mod MS_PER_HOUR + zone)
    with ((t + zone) - (t + zone) mod MS_PER_HOUR) by ring.
  rewrite Zminus_mod_idemp_r, Z.sub_diag. reflexivity.
Qed.

Lemma startOfHour_bounds t :
  startOfHour zone t <= t < startOfHour zone t + MS_PER_HOUR.
Proof.
  unfold startOfHour.
  assert (0 <= (t + zone) mod MS_PER_HOUR < MS_PER_HOUR)
    by (apply Z.mod_pos_bound; reflexivity).
  lia.
Qed.

Lemma startOfDay_bounds t : startOfDay zone t <= t <= endOfDay zone t.
Proof.
  unfold endOfDay, startOfDay.
  assert (0 <= (t + zone) mod MS_PER_DAY < MS_PER_DAY)
    by (apply Z.mod_pos_bound; reflexivity).
  lia.
Qed.

Lemma startOfHour_fixed t :
  (t + zone) mod MS_PER_HOUR = 0 -> startOfHour zone t = t.
Proof. unfold startOfHour. intros ->. ring. Qed.

Lemma startOfHour_startOfHour t :
  startOfHour zone (startOfHour zone t) = startOfHour zone t.
Proof. apply startOfHour_fixed, startOfHour_aligned. Qed.
End TimeRules.

(* ------------------------------------------------------------------ *)
(** ** Table lemmas *)

Lemma strict_neq_other req p : p <> userId req -> strict_neq req p = true.
Proof.
  intros H. unfold strict_neq. apply Z.eqb_neq in H. rewrite H.
  apply orb_true_r.
Qed.

Lemma isNull_true {A} (o : option A) : isNull o = true <-> o = None.
Proof. destruct o; cbn; split; congruence. Qed.

Lemma isNull_false {A} (o : option A) : isNull o = false <-> o <> None.
Proof. destruct o; cbn; split; congruence. Qed.

Lemma findOne_none_filter where_ rows :
  Apointment.findOne where_ rows = None -> filter where_ rows = [].
Proof.
  unfold Apointment.findOne.
  induction rows as [|r rows IH]; cbn; [reflexivity|].
  destruct (where_ r); [discriminate|exact IH].
Qed.

Lemma findOne_in where_ rows r :
  In r rows -> where_ r = true -> Apointment.findOne where_ rows <> None.
Proof.
  intros Hin Hr Hnone.
  pose proof (find_none _ _ Hnone r Hin). congruence.
Qed.

Lemma findByPk_id pk rows r :
  Apointment.findByPk pk rows = Some r -> Apointment.id r = pk /\ In r rows.
Proof.
  unfold Apointment.findByPk. intros H.
  apply find_some in H. destruct H as [Hin Hid].
  split; [apply Z.eqb_eq; exact Hid|exact Hin].
Qed.

Lemma findByPk_app pk rows r extra :
  Apointment.findByPk pk rows = Some r ->
  Apointment.findByPk pk (rows ++ extra) = Some r.
Proof.
  unfold Apointment.findByPk.
  induction rows as [|x rows IH]; cbn; [discriminate|].
  destruct (Apointment.id x =? pk); [trivial|exact IH].
Qed.

(** A saved row keeps its id, so [save] does not move what [findByPk]
    finds; it only replaces it. *)
Lemma findByPk_save pk a rows :
  Apointment.findByPk pk (Apointment.save a rows) =
    option_map (fun r => if Apointment.id r =? Apointment.id a then a else r)
               (Apointment.findByPk pk rows).
Proof.
  unfold Apointment.findByPk, Apointment.save.
  induction rows as [|x rows IH]; cbn; [reflexivity|].
  destruct (Apointment.id x =? Apointment.id a) eqn:Hxa.
  - assert ((Apointment.id a =? pk) = (Apointment.id x =? pk)) as ->
      by (apply Z.eqb_eq in Hxa; rewrite Hxa; reflexivity).
    destruct (Apointment.id x =? pk); cbn.
    + rewrite Hxa. reflexivity.
    + exact IH.
  - destruct (Apointment.id x =? pk); cbn.
    + rewrite Hxa. reflexivity.
    + exact IH.
Qed.

Lemma active_at_app p d rows extra :
  active_at p d (rows ++ extra) = (active_at p d rows + active_at p d extra)%nat.
Proof. unfold active_at. rewrite filter_app, length_app. reflexivity. Qed.

Lemma slot_where_eq p d a :
  slot_where p d a = true <->
  Apointment.provider_id a = p /\ Apointment.canceled_at a = None
  /\ Apointment.date a = d.
Proof.
  unfold slot_where.
  rewrite !andb_true_iff, !Z.eqb_eq, isNull_true. tauto.
Qed.

(** Cancelling rows never adds an active booking to any slot. *)
Lemma active_at_save_canceled p d a rows :
  Apointment.canceled_at a <> None ->
  (active_at p d (Apointment.save a rows) <= active_at p d rows)%nat.
Proof.
  intros Hc. unfold active_at, Apointment.save.
  induction rows as [|x rows IH]; cbn; [lia|].
  destruct (Apointment.id x =? Apointment.id a).
  - assert (slot_where p d a = false) as ->.
    { destruct (slot_where p d a) eqn:E; [|reflexivity].
      apply slot_where_eq in E. tauto. }
    destruct (slot_where p d x); cbn; lia.
  - destruct (slot_where p d x); cbn; lia.
Qed.

Lemma saved_rows_canceled b t rows x :
  In x (Apointment.save (Apointment.set_canceled_at b (Some t)) rows) ->
  Apointment.id x = Apointment.id b ->
  Apointment.canceled_at x <> None.
Proof.
  unfold Apointment.save. intros Hin Hid.
  apply in_map_iff in Hin. destruct Hin as (y & Hy & _).
  cbn [Apointment.set_canceled_at Apointment.id] in Hy.
  destruct (Apointment.id y =? Apointment.id b) eqn:E; subst x.
  - cbn. discriminate.
  - apply Z.eqb_neq in E. contradiction.
Qed.

Lemma slot_unique_nil : slot_unique [].
Proof. intros p d. cbn. lia. Qed.

Lemma slot_unique_created w user_id p h :
  slot_unique (apointments w) ->
  Apointment.findOne (slot_where p h) (apointments w) = None ->
  slot_unique (apointments w ++ [created w user_id p h]).
Proof.
  intros Hu Hfree q d. rewrite active_at_app.
  unfold active_at at 2. cbn [filter].
  destruct (slot_where q d (created w user_id p h)) eqn:E; cbn [List.length].
  - apply slot_where_eq in E. cbn in E. destruct E as (-> & _ & ->).
    unfold active_at. rewrite (findOne_none_filter _ _ Hfree). cbn. lia.
  - specialize (Hu q d). lia.
Qed.

Lemma slot_unique_saved a rows :
  Apointment.canceled_at a <> None ->
  slot_unique rows -> slot_unique (Apointment.save a rows).
Proof.
  intros Hc Hu p d.
  pose proof (active_at_save_canceled p d a rows Hc). specialize (Hu p d). lia.
Qed.

(* ------------------------------------------------------------------ *)
(** ** Steps of the appointments table *)

Lemma store_notify_table env req w1 a :
  apointments (fst (store_notify env req w1 a)) = apointments w1.
Proof.
  unfold store_notify.
  destruct (User.findByPk (userId req) (users w1)); [|reflexivity].
  destruct (notification_up env); reflexivity.
Qed.

Lemma store_table_step env req now w :
  table_step w (apointments (fst (run (ApointmentController.store env req now) w))).
Proof.
  destruct (body_provider_id req) as [p|] eqn:Hp;
    [|rewrite store_invalid by (left; exact Hp); constructor].
  destruct (body_date req) as [d|] eqn:Hd;
    [|rewrite store_invalid by (right; exact Hd); constructor].
  rewrite (store_unfold env req now w p d Hp Hd).
  destruct (isNull (User.findOne _ _)); [constructor|].
  destruct (strict_neq req p); cbn [negb]; [|constructor].
  destruct (_ <? now); [constructor|].
  destruct (isNull (Apointment.findOne _ _)) eqn:Hfree; [|constructor].
  cbv zeta. rewrite store_notify_table. cbn [with_created apointments].
  apply step_created, isNull_true, Hfree.
Qed.

Lemma store0_table_step env req now w :
  table_step w (apointments (fst (run (ApointmentController0.store env req now) w))).
Proof.
  destruct (body_provider_id req) as [p|] eqn:Hp;
    [|rewrite store0_invalid by (left; exact Hp); constructor].
  destruct (body_date req) as [d|] eqn:Hd;
    [|rewrite store0_invalid by (right; exact Hd); constructor].
  rewrite (store0_unfold env req now w p d Hp Hd).
  destruct (isNull (User.findOne _ _)); [constructor|].
  destruct (_ <? now); [constructor|].
  destruct (isNull (Apointment.findOne _ _)) eqn:Hfree; [|constructor].
  cbn [fst with_created apointments].
  apply step_created, isNull_true, Hfree.
Qed.

Lemma delete_table_step env req now now' w :
  table_step w
    (apointments (fst (run (ApointmentController.delete env req now now') w))).
Proof.
  rewrite delete_unfold.
  destruct (Apointment.findByPk (params_id req) (apointments w)) as [a|] eqn:Hfind;
    [|constructor].
  destruct (negb _); [constructor|].
  destruct (_ <? now); [constructor|].
  destruct (findByPk_id _ _ _ Hfind) as [Hid _].
  cbv zeta.
  destruct (queue_up env); cbn [fst with_job with_saved apointments canceled
                                    Apointment.row];
    apply step_canceled; rewrite Hid; exact Hfind.
Qed.

Lemma exec_table_step c w : table_step w (apointments (fst (exec c w))).
Proof.
  destruct c; cbn [exec].
  - apply store_table_step.
  - apply store0_table_step.
  - apply delete_table_step.
  - rewrite index_unfold. destruct (isNull _); constructor.
Qed.

(** Invariants of the table are proved once per kind of step. *)
Lemma execs_invariant (P : list Apointment.t -> Prop) :
  (forall w rows, table_step w rows -> P (apointments w) -> P rows) ->
  forall cs w, P (apointments w) -> P (apointments (execs cs w)).
Proof.
  intros Hstep cs. unfold execs.
  induction cs as [|c cs IH]; intros w Hw; cbn [fold_left]; [exact Hw|].
  apply IH. eapply Hstep; [apply exec_table_step|exact Hw].
Qed.

Lemma slot_unique_step w rows :
  table_step w rows -> slot_unique (apointments w) -> slot_unique rows.
Proof.
  intros [ | user_id p h Hfree | a now' _ ] Hu.
  - exact Hu.
  - apply slot_unique_created; assumption.
  - apply slot_unique_saved; [cbn; discriminate|exact Hu].
Qed.

Lemma kept_refl r : kept r r.
Proof. unfold kept. tauto. Qed.

Lemma kept_trans r1 r2 r3 : kept r1 r2 -> kept r2 r3 -> kept r1 r3.
Proof.
  unfold kept. intros (? & ? & ? & ? & ?) (? & ? & ? & ? & ?).
  repeat split; try congruence. auto.
Qed.

Lemma keeps_step pk r w rows :
  table_step w rows -> keeps pk r (apointments w) -> keeps pk r rows.
Proof.
  intros Hstep (r1 & Hfind & Hk).
  destruct Hstep as [ | user_id p h _ | a now' Ha ].
  - exists r1. split; assumption.
  - exists r1. split; [apply findByPk_app; exact Hfind|exact Hk].
  - unfold keeps. rewrite findByPk_save, Hfind. cbn [option_map Apointment.set_canceled_at
                                        Apointment.id].
    destruct (Apointment.id r1 =? Apointment.id a) eqn:E.
    + eexists. split; [reflexivity|].
      apply Z.eqb_eq in E.
      destruct (findByPk_id _ _ _ Hfind) as [Hpk _].
      assert (a = r1) as -> by congruence.
      eapply kept_trans; [exact Hk|].
      unfold kept; cbn. repeat split; intros; discriminate.
    + exists r1. split; [reflexivity|exact Hk].
Qed.

(* ------------------------------------------------------------------ *)
(** ** Inversion of accepted requests *)

Lemma store_accepted env req now w :
  store_accepts env req now w = true ->
  exists p d,
    body_provider_id req = Some p /\ body_date req = Some d /\
    let a := created w (userId req) p (DateFns.startOfHour (tz env) d) in
    run (ApointmentController.store env req now) w =
      store_notify env req (with_created w a) a.
Proof.
  unfold store_accepts.
  destruct (body_provider_id req) as [p|] eqn:Hp; [|discriminate].
  destruct (body_date req) as [d|] eqn:Hd; [|discriminate].
  cbv zeta. rewrite !andb_true_iff, !negb_true_iff.
  intros [[[H1 H2] H3] H4].
  exists p, d. repeat split.
  rewrite (store_unfold env req now w p d Hp Hd), H1, H2, H3, H4.
  reflexivity.
Qed.

Lemma store_success env req now w w' body :
  run (ApointmentController.store env req now) w = (w', Responded 200 body) ->
  store_accepts env req now w = true
  /\ exists p d,
      body_provider_id req = Some p /\ body_date req = Some d
      /\ body = JApointment (created w (userId req) p (DateFns.startOfHour (tz env) d))
      /\ apointments w' =
           apointments w ++ [created w (userId req) p (DateFns.startOfHour (tz env) d)].
Proof.
  destruct (body_provider_id req) as [p|] eqn:Hp;
    [|rewrite store_invalid by (left; exact Hp); discriminate].
  destruct (body_date req) as [d|] eqn:Hd;
    [|rewrite store_invalid by (right; exact Hd); discriminate].
  rewrite (store_unfold env req now w p d Hp Hd).
  unfold store_accepts. rewrite Hp, Hd. cbv zeta.
  destruct (isNull (User.findOne _ _)); [discriminate|].
  destruct (strict_neq req p); cbn [negb]; [|discriminate].
  destruct (_ <? now); [discriminate|].
  destruct (isNull (Apointment.findOne _ _)); [|discriminate].
  unfold store_notify.
  destruct (User.findByPk _ _); [|discriminate].
  destruct (notification_up env); [|discriminate].
  intros E. injection E as <- <-.
  split; [reflexivity|]. exists p, d. repeat split.
Qed.

Lemma delete_accepted env req now now' w :
  delete_accepts req now w = true ->
  exists r,
    Apointment.findByPk (params_id req) (apointments w) = Some r /\
    let a' := canceled (users w) r now' in
    let w1 := with_saved w (Apointment.row a') in
    run (ApointmentController.delete env req now now') w =
      if queue_up env then
        (with_job w1 {| Queue.job_key := Queue.CancellationMail;
                       Queue.appointment := a' |},
         Responded 200 (JLoaded a'))
      else (w1, Rejected QueueError).
Proof.
  unfold delete_accepts. rewrite delete_unfold.
  destruct (Apointment.findByPk _ _) as [r|]; [|discriminate].
  rewrite andb_true_iff, negb_true_iff. intros [H1 H2].
  exists r. split; [reflexivity|]. rewrite H1, H2. reflexivity.
Qed.

Lemma delete_success env req now now' w w' body :
  run (ApointmentController.delete env req now now') w = (w', Responded 200 body) ->
  delete_accepts req now w = true
  /\ exists r,
      Apointment.findByPk (params_id req) (apointments w) = Some r
      /\ body = JLoaded (canceled (users w) r now')
      /\ apointments w' =
           Apointment.save (Apointment.set_canceled_at r (Some now')) (apointments w).
Proof.
  rewrite delete_unfold. unfold delete_accepts.
  destruct (Apointment.findByPk _ _) as [r|]; [|discriminate].
  destruct (Apointment.user_id r =? userId req); [|discriminate].
  destruct (_ <? now); [discriminate|].
  cbv zeta. destruct (queue_up env); [|discriminate].
  intros E. injection E as <- <-.
  split; [reflexivity|]. exists r. repeat split.
Qed.

Lemma Sample_w1_booked : apointments Sample.w1 = [Sample.booked].
Proof. reflexivity. Qed.

Lemma Sample_w1_response :
  exec (Store Sample.up (Sample.post 2 1 (10 * Sample.hour + 300000)) 0) Sample.w0
  = (Sample.w1, Responded 200 (JApointment Sample.booked)).
Proof. reflexivity. Qed.

(* ------------------------------------------------------------------ *)
(** ** Properties of the time rules *)

(** C8: [Normalize] (date-fns [startOfHour], as [store] applies it to the
    requested date) is idempotent: normalizing an already normalized
    timestamp gives the same timestamp, in every zone. *)
Theorem C8_startOfHour_idempotent (zone t : Z) :
  DateFns.startOfHour zone (DateFns.startOfHour zone t)
  = DateFns.startOfHour zone t.
Proof. apply startOfHour_startOfHour. Qed.

(** C7, as stated, fails at the boundary: a request made at the very
    millisecond an hour starts, for a time inside that hour, is accepted
    and the booking's date equals [now]; it is not strictly after it. *)
Lemma C7_counterexample :
  let now := 10 * Sample.hour in
  exists w' a,
    exec (Store Sample.up (Sample.post 2 1 (10 * Sample.hour + 300000)) now) Sample.w0
    = (w', Responded 200 (JApointment a))
    /\ ~ (now < Apointment.date a).
Proof.
  cbv zeta. eexists. eexists. split; [reflexivity|].
  cbn. unfold Sample.hour, DateFns.MS_PER_HOUR. lia.
Qed.

(** C7 (amended): every successful [store] answers with the booking it
    created; that booking is in the table, active, its date is the
    requested date truncated to the start of its hour (so it is itself
    normalized), and its date is not before the clock reading of the
    past-date check: [now <= date], equality included. *)
Theorem C7_created_date env req now w w' body :
  run (ApointmentController.store env req now) w = (w', Responded 200 body) ->
  exists a d,
    body = JApointment a
    /\ body_date req = Some d
    /\ Apointment.date a = DateFns.startOfHour (tz env) d
    /\ DateFns.startOfHour (tz env) (Apointment.date a) = Apointment.date a
    /\ now <= Apointment.date a
    /\ Apointment.canceled_at a = None
    /\ In a (apointments w').
Proof.
  intros Hrun.
  destruct (store_success _ _ _ _ _ _ Hrun) as (Hacc & p & d & Hp & Hd & -> & Hrows).
  eexists. exists d. split; [reflexivity|]. split; [exact Hd|].
  cbn [created Apointment.date Apointment.canceled_at].
  split; [reflexivity|]. split; [apply startOfHour_startOfHour|].
  split.
  - unfold store_accepts in Hacc. rewrite Hp, Hd in Hacc. cbv zeta in Hacc.
    rewrite !andb_true_iff, !negb_true_iff in Hacc.
    destruct Hacc as [[[_ _] H3] _]. apply Z.ltb_ge in H3. exact H3.
  - split; [reflexivity|]. rewrite Hrows. apply in_or_app. right. left. reflexivity.
Qed.

Lemma C7_created_date_witness :
  exists a d,
    JApointment Sample.booked = JApointment a
    /\ body_date (Sample.post 2 1 (10 * Sample.hour + 300000)) = Some d
    /\ Apointment.date a = DateFns.startOfHour (tz Sample.up) d
    /\ DateFns.startOfHour (tz Sample.up) (Apointment.date a) = Apointment.date a
    /\ 0 <= Apointment.date a
    /\ Apointment.canceled_at a = None
    /\ In a (apointments Sample.w1).
Proof.
  apply (C7_created_date Sample.up (Sample.post 2 1 (10 * Sample.hour + 300000))
           0 Sample.w0 Sample.w1 (JApointment Sample.booked)).
  reflexivity.
Defined.

(* ------------------------------------------------------------------ *)
(** ** Cancellation *)

(** C4, as stated, fails when exactly two hours remain: the booking at
    hour 10 is cancelled by its owner at hour 8 sharp, although
    [date - 2h <= now] holds there. *)
Lemma C4_counterexample :
  let now := 8 * Sample.hour in
  Apointment.findByPk 1 (apointments Sample.w1) = Some Sample.booked
  /\ Apointment.user_id Sample.booked = userId (Sample.del 2 1)
  /\ DateFns.subHours (Apointment.date Sample.booked) 2 <= now
  /\ snd (exec (Delete Sample.up (Sample.del 2 1) now now) Sample.w1)
     <> TooLateToCancel.
Proof.
  cbv zeta. split; [reflexivity|]. split; [reflexivity|]. split.
  - cbn. unfold Sample.hour, DateFns.subHours, DateFns.MS_PER_HOUR. lia.
  - cbn. discriminate.
Qed.

(** C4 (amended): for a stored booking owned by the caller, [delete]
    answers [TooLateToCancel] if and only if the booking's date minus two
    hours is strictly before [now]; when two hours or more remain (exactly
    two included) the lead-time check passes and the booking is saved with
    [canceled_at] set to the second clock reading. *)
Theorem C4_lead_time env req now now' w b :
  Apointment.findByPk (params_id req) (apointments w) = Some b ->
  Apointment.user_id b = userId req ->
  (snd (run (ApointmentController.delete env req now now') w) = TooLateToCancel
   <-> DateFns.subHours (Apointment.date b) 2 < now)
  /\ (now <= DateFns.subHours (Apointment.date b) 2 ->
      Apointment.findByPk (params_id req)
        (apointments (fst (run (ApointmentController.delete env req now now') w)))
      = Some (Apointment.set_canceled_at b (Some now'))).
Proof.
  intros Hfind Hown.
  rewrite delete_unfold, Hfind, Hown, Z.eqb_refl. cbn [negb].
  destruct (Z.ltb_spec (DateFns.subHours (Apointment.date b) 2) now) as [Hlt|Hge].
  - split; [cbn [snd]; tauto|lia].
  - split.
    + cbv zeta. destruct (queue_up env); cbn [snd]; split;
        try discriminate; lia.
    + intros _.
      assert (Apointment.findByPk (params_id req)
                (Apointment.save (Apointment.set_canceled_at b (Some now'))
                                 (apointments w))
              = Some (Apointment.set_canceled_at b (Some now'))) as Hsaved.
      { rewrite findByPk_save, Hfind. cbn. rewrite Z.eqb_refl. reflexivity. }
      cbv zeta. destruct (queue_up env); exact Hsaved.
Qed.

Lemma C4_lead_time_witness :
  (snd (run (ApointmentController.delete Sample.up (Sample.del 2 1)
              (8 * Sample.hour) (9 * Sample.hour)) Sample.w1) = TooLateToCancel
   <-> DateFns.subHours (Apointment.date Sample.booked) 2 < 8 * Sample.hour)
  /\ Apointment.findByPk 1
        (apointments (fst (run (ApointmentController.delete Sample.up (Sample.del 2 1)
                                  (8 * Sample.hour) (9 * Sample.hour)) Sample.w1)))
      = Some (Apointment.set_canceled_at Sample.booked (Some (9 * Sample.hour))).
Proof.
  destruct (C4_lead_time Sample.up (Sample.del 2 1) (8 * Sample.hour) (9 * Sample.hour)
              Sample.w1 Sample.booked eq_refl eq_refl) as [Hiff Hpass].
  split; [exact Hiff|].
  apply Hpass. vm_compute. discriminate.
Defined.

Lemma delete_missing env req now now' w :
  Apointment.findByPk (params_id req) (apointments w) = None ->
  run (ApointmentController.delete env req now now') w
  = (w, Rejected (TypeError "Cannot read property 'user_id' of null")).
Proof. intros H. rewrite delete_unfold, H. reflexivity. Qed.

(** C3: the claim asks for a [NotFound] error response when the id denotes
    no stored booking.  [delete] reads [appointment.user_id] without
    testing the result of [findByPk]: for the id 99, which no booking has,
    the handler sends no response at all and rejects with a [TypeError],
    leaving the world untouched. *)
Theorem C3_delete_missing_throws :
  Apointment.findByPk 99 (apointments Sample.w1) = None
  /\ exec (Delete Sample.up (Sample.del 2 99) 0 0) Sample.w1
     = (Sample.w1, Rejected (TypeError "Cannot read property 'user_id' of null"))
  /\ forall status body,
      snd (exec (Delete Sample.up (Sample.del 2 99) 0 0) Sample.w1)
      <> Responded status body.
Proof.
  split; [reflexivity|]. split; [reflexivity|].
  intros status body. cbn. discriminate.
Qed.

(* ------------------------------------------------------------------ *)
(** ** Self-booking *)

(** The provider check comes before the self-booking check: a caller who
    is not a provider and asks for an appointment with themself is
    answered [NotAProvider]. *)
Lemma self_booking_by_non_provider :
  userId (Sample.post 2 2 (10 * Sample.hour)) = 2
  /\ body_provider_id (Sample.post 2 2 (10 * Sample.hour)) = Some 2
  /\ exec (Store Sample.up (Sample.post 2 2 (10 * Sample.hour)) 0) Sample.w0
     = (Sample.w0, NotAProvider)
  /\ NotAProvider <> SelfBookingNotAllowed.
Proof. repeat split. discriminate. Qed.

(** When [provider_id] comes as a number the self-booking check works:
    the request writes nothing and is answered with an error. *)
Lemma self_booking_by_number_not_stored env req now w :
  body_provider_id req = Some (userId req) ->
  provider_id_is_string req = false ->
  run (ApointmentController.store env req now) w =
    (w, match body_date req with
        | None => ValidationFails
        | Some _ =>
            if isNull (User.findOne (provider_where (userId req)) (users w))
            then NotAProvider else SelfBookingNotAllowed
        end).
Proof.
  intros Hp Hnum.
  destruct (body_date req) as [d|] eqn:Hd;
    [|apply store_invalid; right; exact Hd].
  rewrite (store_unfold env req now w _ d Hp Hd).
  unfold strict_neq. rewrite Hnum, Z.eqb_refl.
  destruct (isNull _); reflexivity.
Qed.

(** C5: the claim says a request with [requesterId == providerId] never
    reaches storage.  The check of [store] compares the body's value with
    [!==]: when the barber, a provider, sends their own id as the string
    ["1"], the schema accepts it, the string is not strictly equal to
    the number [1], the check is passed over, and the barber's
    appointment with themself is created and answered with status 200. *)
Theorem C5_self_booking_as_string_stored :
  let req := Sample.post_string 1 1 (10 * Sample.hour) in
  let a := {| Apointment.id := 1; Apointment.user_id := 1;
              Apointment.provider_id := 1; Apointment.date := 10 * Sample.hour;
              Apointment.canceled_at := None |} in
  userId req = 1
  /\ body_provider_id req = Some 1
  /\ snd (exec (Store Sample.up req 0) Sample.w0) = Responded 200 (JApointment a)
  /\ snd (exec (Store Sample.up req 0) Sample.w0) <> SelfBookingNotAllowed
  /\ apointments (fst (exec (Store Sample.up req 0) Sample.w0)) = [a]
  /\ Apointment.user_id a = Apointment.provider_id a.
Proof. cbv zeta. repeat split. discriminate. Qed.

(** The controller variant without the self-booking check stores a
    provider's appointment with themself. *)
Lemma store0_self_booking_stored :
  exec (Store0 Sample.up (Sample.post 1 1 (10 * Sample.hour)) 0) Sample.w0
  = (with_created Sample.w0 (created Sample.w0 1 1 (10 * Sample.hour)),
     Responded 200 (JApointment (created Sample.w0 1 1 (10 * Sample.hour)))).
Proof. reflexivity. Qed.

(* ------------------------------------------------------------------ *)
(** ** No request touches the users table *)

Lemma exec_users c w : users (fst (exec c w)) = users w.
Proof.
  destruct c as [env req now|env req now|env req now now'|env req]; cbn [exec].
  - destruct (body_provider_id req) as [p|] eqn:Hp;
      [|rewrite store_invalid by (left; exact Hp); reflexivity].
    destruct (body_date req) as [d|] eqn:Hd;
      [|rewrite store_invalid by (right; exact Hd); reflexivity].
    rewrite (store_unfold env req now w p d Hp Hd).
    destruct (isNull (User.findOne _ _)); [reflexivity|].
    destruct (strict_neq req p); cbn [negb]; [|reflexivity].
    destruct (_ <? now); [reflexivity|].
    destruct (isNull (Apointment.findOne _ _)); [|reflexivity].
    cbv zeta. unfold store_notify.
    destruct (User.findByPk _ _); [|reflexivity].
    destruct (notification_up env); reflexivity.
  - destruct (body_provider_id req) as [p|] eqn:Hp;
      [|rewrite store0_invalid by (left; exact Hp); reflexivity].
    destruct (body_date req) as [d|] eqn:Hd;
      [|rewrite store0_invalid by (right; exact Hd); reflexivity].
    rewrite (store0_unfold env req now w p d Hp Hd).
    destruct (isNull (User.findOne _ _)); [reflexivity|].
    destruct (_ <? now); [reflexivity|].
    destruct (isNull (Apointment.findOne _ _)); reflexivity.
  - rewrite delete_unfold.
    destruct (Apointment.findByPk _ _); [|reflexivity].
    destruct (negb _); [reflexivity|].
    destruct (_ <? now); [reflexivity|].
    cbv zeta. destruct (queue_up env); reflexivity.
  - rewrite index_unfold. destruct (isNull _); reflexivity.
Qed.

Lemma execs_users cs w : users (execs cs w) = users w.
Proof.
  unfold execs. revert w.
  induction cs as [|c cs IH]; intros w; cbn [fold_left]; [reflexivity|].
  rewrite IH. apply exec_users.
Qed.

(** A request for a slot that holds an active booking creates nothing
    and is answered by the first check it fails. *)
Lemma store_taken env req now w b d :
  In b (apointments w) ->
  Apointment.canceled_at b = None ->
  body_provider_id req = Some (Apointment.provider_id b) ->
  body_date req = Some d ->
  DateFns.startOfHour (tz env) d = Apointment.date b ->
  run (ApointmentController.store env req now) w =
    (w, if isNull (User.findOne (provider_where (Apointment.provider_id b)) (users w))
        then NotAProvider
        else if negb (strict_neq req (Apointment.provider_id b))
        then SelfBookingNotAllowed
        else if Apointment.date b <? now then PastDate
        else SlotUnavailable).
Proof.
  intros Hin Hact Hp Hd Hh.
  rewrite (store_unfold env req now w _ d Hp Hd), Hh.
  assert (isNull (Apointment.findOne
                    (slot_where (Apointment.provider_id b) (Apointment.date b))
                    (apointments w)) = false) as ->.
  { apply isNull_false. apply (findOne_in _ _ b Hin).
    apply slot_where_eq. auto. }
  destruct (isNull _); [reflexivity|].
  destruct (negb _); [reflexivity|].
  destruct (_ <? _); reflexivity.
Qed.

(* ------------------------------------------------------------------ *)
(** ** One active booking per provider and hour *)

(** [store] run alone is its checks followed by its writes. *)
Lemma store_checks_then_writes env req now w :
  ApointmentController.store env req now w
  = bind (Overlap.store_checks env req now)
         (fun ph => Overlap.store_writes env req (fst ph) (snd ph)) w.
Proof.
  unfold ApointmentController.store, Overlap.store_checks, Overlap.store_writes.
  destruct (body_provider_id req) as [p|]; [|reflexivity].
  destruct (body_date req) as [d|]; [|reflexivity].
  unfold bind, User_findOne, Apointment_findOne, query, return_if.
  destruct (isNull (User.findOne _ (users w))); [reflexivity|]. cbn [ret].
  destruct (negb (strict_neq req p)); [reflexivity|]. cbn [ret].
  destruct (DateFns.isBefore _ now); [reflexivity|]. cbn [ret].
  destruct (negb (isNull (Apointment.findOne _ (apointments w)))); reflexivity.
Qed.

(** C1, as stated, fails twice over.  While the booking made at time 0
    for hour 10 is active, a second request for the same provider and
    hour is answered [SelfBookingNotAllowed] when the provider asks, and
    [PastDate] when it arrives after the hour has begun; neither is
    [SlotUnavailable].  And when two requests for the same free slot
    overlap, each passing its availability check before the other has
    created its booking, both are answered with a booking and the table
    holds two active bookings of the provider at that hour. *)
Lemma C1_counterexample :
  (exec (Store Sample.up (Sample.post 2 1 (10 * Sample.hour + 300000)) 0) Sample.w0
   = (Sample.w1, Responded 200 (JApointment Sample.booked))
   /\ Apointment.findByPk 1 (apointments Sample.w1) = Some Sample.booked
   /\ Apointment.canceled_at Sample.booked = None
   /\ snd (exec (Store Sample.up (Sample.post 1 1 (10 * Sample.hour + 900000)) 0)
                Sample.w1) = SelfBookingNotAllowed
   /\ snd (exec (Store Sample.up (Sample.post 2 1 (10 * Sample.hour + 900000))
                       (10 * Sample.hour + 1)) Sample.w1) = PastDate
   /\ SelfBookingNotAllowed <> SlotUnavailable
   /\ PastDate <> SlotUnavailable)
  /\
  (let first := Sample.post 2 1 (10 * Sample.hour + 300000) in
   let second := Sample.post 2 1 (10 * Sample.hour + 900000) in
   let both := Overlap.overlapped Sample.up first 0 Sample.up second 0 Sample.w0 in
   slot_unique (apointments Sample.w0)
   /\ fst (snd both) = Responded 200 (JApointment Sample.booked)
   /\ snd (snd both)
      = Responded 200 (JApointment
                         {| Apointment.id := 2; Apointment.user_id := 2;
                            Apointment.provider_id := 1;
                            Apointment.date := 10 * Sample.hour;
                            Apointment.canceled_at := None |})
   /\ active_at 1 (10 * Sample.hour) (apointments (fst both)) = 2%nat
   /\ ~ slot_unique (apointments (fst both))).
Proof.
  split; [repeat split; discriminate|].
  cbv zeta. split; [exact slot_unique_nil|].
  split; [reflexivity|]. split; [reflexivity|]. split; [reflexivity|].
  intros Hu. specialize (Hu 1 (10 * Sample.hour)).
  vm_compute in Hu. lia.
Qed.

(** C1 (amended): for requests handled one after another.  Starting from
    a table with at most one active booking per provider and date, let
    [store] succeed with booking [b] and let any requests follow.  Then
    the table still has at most one active booking per provider and
    date; and while [b] is in the table, a [store] request for [b]'s
    provider whose date normalizes to [b]'s hour creates nothing and is
    answered with an error, which is [SlotUnavailable] unless the
    self-booking check stops the request first ([SelfBookingNotAllowed]:
    the requester is the provider and sent the id as a number) or the
    hour is before the request's [now] ([PastDate]). *)
Theorem C1_slot_exclusive env req now w w1 b cs env' req' now' d' :
  slot_unique (apointments w) ->
  run (ApointmentController.store env req now) w = (w1, Responded 200 (JApointment b)) ->
  let w2 := execs cs w1 in
  slot_unique (apointments w2)
  /\ (In b (apointments w2) ->
      body_provider_id req' = Some (Apointment.provider_id b) ->
      body_date req' = Some d' ->
      DateFns.startOfHour (tz env') d' = Apointment.date b ->
      run (ApointmentController.store env' req' now') w2 =
        (w2, if (Apointment.provider_id b =? userId req')
                && negb (provider_id_is_string req')
             then SelfBookingNotAllowed
             else if Apointment.date b <? now' then PastDate
             else SlotUnavailable)).
Proof.
  intros Hu Hrun w2.
  destruct (store_success _ _ _ _ _ _ Hrun) as (Hacc & p & d & Hp & Hd & Hb & Hrows).
  injection Hb as ->.
  split.
  - apply (execs_invariant slot_unique slot_unique_step).
    apply (slot_unique_step w); [|exact Hu].
    replace (apointments w1)
      with (apointments (fst (run (ApointmentController.store env req now) w)))
      by (rewrite Hrun; reflexivity).
    apply store_table_step.
  - intros Hin Hp' Hd' Hh.
    rewrite (store_taken env' req' now' w2 _ d' Hin eq_refl Hp' Hd' Hh).
    assert (isNull (User.findOne
                      (provider_where (Apointment.provider_id
                         (created w (userId req) p (DateFns.startOfHour (tz env) d))))
                      (users w2)) = false) as ->.
    { unfold w2. rewrite execs_users.
      replace (users w1)
        with (users (fst (exec (Store env req now) w)))
        by (cbn [exec]; rewrite Hrun; reflexivity).
      rewrite exec_users. cbn [created Apointment.provider_id].
      unfold store_accepts in Hacc. rewrite Hp, Hd in Hacc. cbv zeta in Hacc.
      rewrite !andb_true_iff, !negb_true_iff in Hacc. tauto. }
    unfold strict_neq.
    destruct (provider_id_is_string req'), (_ =? userId req'); reflexivity.
Qed.

Lemma C1_slot_exclusive_witness :
  let w2 := execs [Schedule Sample.up (Sample.post 1 1 0)] Sample.w1 in
  slot_unique (apointments w2)
  /\ run (ApointmentController.store Sample.up
             (Sample.post 2 1 (10 * Sample.hour + 900000)) Sample.hour) w2
      = (w2, SlotUnavailable).
Proof.
  destruct (C1_slot_exclusive
              Sample.up (Sample.post 2 1 (10 * Sample.hour + 300000)) 0
              Sample.w0 Sample.w1 Sample.booked
              [Schedule Sample.up (Sample.post 1 1 0)]
              Sample.up (Sample.post 2 1 (10 * Sample.hour + 900000)) Sample.hour
              (10 * Sample.hour + 900000)
              slot_unique_nil eq_refl) as [Hunique Hsecond].
  split; [exact Hunique|].
  apply Hsecond; [left|..]; reflexivity.
Defined.

(* ------------------------------------------------------------------ *)
(** ** Cancellation is soft; it is not final *)

(** C6, as stated, fails: a cancelled booking is cancelled again by its
    owner while the lead time lasts, and [canceled_at] moves from the
    first cancellation's clock reading to the second's. *)
Lemma C6_counterexample :
  let w2 := fst (exec (Delete Sample.up (Sample.del 2 1) 0 Sample.hour) Sample.w1) in
  let again := exec (Delete Sample.up (Sample.del 2 1) (2 * Sample.hour)
                            (3 * Sample.hour)) w2 in
  option_map Apointment.canceled_at (Apointment.findByPk 1 (apointments w2))
  = Some (Some Sample.hour)
  /\ is_error (snd again) = false
  /\ option_map Apointment.canceled_at (Apointment.findByPk 1 (apointments (fst again)))
     = Some (Some (3 * Sample.hour))
  /\ Some Sample.hour <> Some (3 * Sample.hour).
Proof. repeat split. discriminate. Qed.

(** C6 (amended): when [delete] succeeds on booking [b], [findByPk] still
    returns it, with [canceled_at] set; and after any further requests
    [findByPk] still returns a row with [b]'s id, requester, provider and
    date whose [canceled_at] is not null.  The row is never removed and
    the cancellation never undone; the value of [canceled_at] is not
    promised to stay (a later successful [delete] writes its own). *)
Theorem C6_soft_cancellation env req now now' w w' body cs :
  run (ApointmentController.delete env req now now') w = (w', Responded 200 body) ->
  exists b,
    Apointment.findByPk (params_id req) (apointments w) = Some b
    /\ Apointment.findByPk (params_id req) (apointments w')
       = Some (Apointment.set_canceled_at b (Some now'))
    /\ exists b',
        Apointment.findByPk (params_id req) (apointments (execs cs w')) = Some b'
        /\ Apointment.id b' = Apointment.id b
        /\ Apointment.user_id b' = Apointment.user_id b
        /\ Apointment.provider_id b' = Apointment.provider_id b
        /\ Apointment.date b' = Apointment.date b
        /\ Apointment.canceled_at b' <> None.
Proof.
  intros Hrun.
  destruct (delete_success _ _ _ _ _ _ _ Hrun) as (_ & b & Hfind & _ & Hrows).
  exists b. split; [exact Hfind|].
  assert (Apointment.findByPk (params_id req) (apointments w')
          = Some (Apointment.set_canceled_at b (Some now'))) as Hsaved.
  { rewrite Hrows, findByPk_save, Hfind. cbn. rewrite Z.eqb_refl. reflexivity. }
  split; [exact Hsaved|].
  destruct (execs_invariant
              (keeps (params_id req) (Apointment.set_canceled_at b (Some now')))
              (keeps_step _ _) cs w') as (b' & Hfind' & Hk).
  { eexists. split; [exact Hsaved|apply kept_refl]. }
  destruct Hk as (H1 & H2 & H3 & H4 & H5).
  exists b'. repeat split; try assumption.
  apply H5. cbn. discriminate.
Qed.

Lemma C6_soft_cancellation_witness :
  let w2 := fst (exec (Delete Sample.up (Sample.del 2 1) 0 Sample.hour) Sample.w1) in
  exists b,
    Apointment.findByPk 1 (apointments Sample.w1) = Some b
    /\ Apointment.findByPk 1 (apointments w2)
       = Some (Apointment.set_canceled_at b (Some Sample.hour))
    /\ exists b',
        Apointment.findByPk 1
          (apointments
             (execs [Delete Sample.up (Sample.del 2 1) (2 * Sample.hour)
                            (3 * Sample.hour);
                     Store Sample.up (Sample.post 2 1 (10 * Sample.hour)) 0] w2))
        = Some b'
        /\ Apointment.id b' = Apointment.id b
        /\ Apointment.user_id b' = Apointment.user_id b
        /\ Apointment.provider_id b' = Apointment.provider_id b
        /\ Apointment.date b' = Apointment.date b
        /\ Apointment.canceled_at b' <> None.
Proof.
  refine (C6_soft_cancellation Sample.up (Sample.del 2 1) 0 Sample.hour Sample.w1 _ _
            [Delete Sample.up (Sample.del 2 1) (2 * Sample.hour) (3 * Sample.hour);
             Store Sample.up (Sample.post 2 1 (10 * Sample.hour)) 0] _).
  reflexivity.
Defined.

(* ------------------------------------------------------------------ *)
(** ** Notification and dispatch are awaited *)

(** C2, as stated, fails: [store] awaits [Notification.create] and
    [delete] awaits [Queue.add].  With the notification store down the
    accepted booking is written but the handler rejects instead of
    answering with it; with the queue down the cancellation is written
    but the handler rejects.  With both up the same requests are answered
    with the booking. *)
Lemma C2_counterexample :
  let post := Sample.post 2 1 (10 * Sample.hour + 300000) in
  exec (Store (Sample.env true true) post 0) Sample.w0
  = (Sample.w1, Responded 200 (JApointment Sample.booked))
  /\ exec (Store (Sample.env false true) post 0) Sample.w0
     = (with_created Sample.w0 Sample.booked, Rejected NotificationError)
  /\ is_error (snd (exec (Delete (Sample.env true true) (Sample.del 2 1) 0 1)
                         Sample.w1)) = false
  /\ exec (Delete (Sample.env true false) (Sample.del 2 1) 0 1) Sample.w1
     = (with_saved Sample.w1 (Apointment.set_canceled_at Sample.booked (Some 1)),
        Rejected QueueError).
Proof. repeat split. Qed.

(** C2 (amended): a failed notification or enqueue does not undo what was
    written, but it does change what the caller gets.  For an accepted
    [store] the table afterwards is the table before with the new booking
    appended, whatever happens next; the caller is answered with that
    booking exactly when the requester's row is found and
    [Notification.create] succeeds; when the row is missing the handler
    rejects with a [TypeError], and when the notification fails it
    rejects with that failure and no notification is written.  For an
    accepted [delete] the booking is saved with [canceled_at] set; the
    caller is answered with it when [Queue.add] succeeds, and otherwise
    the handler rejects. *)
Theorem C2_side_effects_awaited :
  (forall env req now w,
      store_accepts env req now w = true ->
      exists p d,
        body_provider_id req = Some p
        /\ body_date req = Some d
        /\ let a := created w (userId req) p (DateFns.startOfHour (tz env) d) in
           apointments (fst (run (ApointmentController.store env req now) w))
           = apointments w ++ [a]
           /\ next_id (fst (run (ApointmentController.store env req now) w))
              = next_id w + 1
           /\ (snd (run (ApointmentController.store env req now) w)
               = Responded 200 (JApointment a)
               <-> User.findByPk (userId req) (users w) <> None
                   /\ notification_up env = true)
           /\ (User.findByPk (userId req) (users w) = None ->
               snd (run (ApointmentController.store env req now) w)
               = Rejected (TypeError "Cannot read property 'name' of null"))
           /\ (User.findByPk (userId req) (users w) <> None ->
               notification_up env = false ->
               snd (run (ApointmentController.store env req now) w)
               = Rejected NotificationError
               /\ notifications (fst (run (ApointmentController.store env req now) w))
                  = notifications w))
  /\
  (forall env req now now' w,
      delete_accepts req now w = true ->
      exists b,
        Apointment.findByPk (params_id req) (apointments w) = Some b
        /\ Apointment.findByPk (params_id req)
             (apointments (fst (run (ApointmentController.delete env req now now') w)))
           = Some (Apointment.set_canceled_at b (Some now'))
        /\ (queue_up env = true ->
            snd (run (ApointmentController.delete env req now now') w)
            = Responded 200 (JLoaded (canceled (users w) b now')))
        /\ (queue_up env = false ->
            snd (run (ApointmentController.delete env req now now') w)
            = Rejected QueueError)).
Proof.
  split.
  - intros env req now w Hacc.
    destruct (store_accepted _ _ _ _ Hacc) as (p & d & Hp & Hd & Hrun).
    cbv zeta in Hrun. exists p, d. split; [exact Hp|]. split; [exact Hd|].
    cbv zeta. rewrite Hrun. unfold store_notify. cbn [with_created users].
    destruct (User.findByPk (userId req) (users w)) as [u|].
    + destruct (notification_up env); cbn [fst snd with_notification with_created
                                             apointments next_id notifications].
      * repeat split; try reflexivity; try discriminate; congruence.
      * repeat split; try reflexivity; try discriminate; try congruence.
        intros [_ ?]. discriminate.
    + cbn [fst snd with_created apointments next_id].
      repeat split; try reflexivity; try discriminate; try congruence.
      intros [? _]. congruence.
  - intros env req now now' w Hacc.
    destruct (delete_accepted env req now now' w Hacc) as (b & Hfind & Hrun).
    cbv zeta in Hrun. rewrite Hrun.
    assert (Apointment.findByPk (params_id req)
              (Apointment.save (Apointment.set_canceled_at b (Some now'))
                               (apointments w))
            = Some (Apointment.set_canceled_at b (Some now'))) as Hsaved.
    { rewrite findByPk_save, Hfind. cbn. rewrite Z.eqb_refl. reflexivity. }
    exists b. split; [exact Hfind|].
    destruct (queue_up env); cbn [fst snd].
    + split; [exact Hsaved|]. split; [reflexivity|discriminate].
    + split; [exact Hsaved|]. split; [discriminate|reflexivity].
Qed.

Lemma C2_side_effects_awaited_witness :
  (apointments (fst (run (ApointmentController.store (Sample.env false true)
                           (Sample.post 2 1 (10 * Sample.hour + 300000)) 0)
                         Sample.w0))
   = apointments Sample.w0 ++ [Sample.booked]
   /\ snd (run (ApointmentController.store (Sample.env false true)
                  (Sample.post 2 1 (10 * Sample.hour + 300000)) 0) Sample.w0)
      = Rejected NotificationError)
  /\ snd (run (ApointmentController.delete (Sample.env true false)
                 (Sample.del 2 1) 0 1) Sample.w1)
     = Rejected QueueError.
Proof.
  split.
  - destruct (proj1 C2_side_effects_awaited (Sample.env false true)
                (Sample.post 2 1 (10 * Sample.hour + 300000)) 0 Sample.w0 eq_refl)
      as (p & d & Hp & Hd & Hrows & _ & _ & _ & Hdown).
    injection Hp as <-. injection Hd as <-.
    split; [exact Hrows|].
    apply Hdown; [discriminate|reflexivity].
  - destruct (proj2 C2_side_effects_awaited (Sample.env true false)
                (Sample.del 2 1) 0 1 Sample.w1 eq_refl)
      as (b & _ & _ & _ & Hdown).
    exact (Hdown eq_refl).
Defined.

(* ------------------------------------------------------------------ *)
(** ** Cancelling frees the slot *)

(** C9, as stated, fails: the client has cancelled the booking at hour
    10 and asks for the same slot again; the target is a provider, the
    requester is not the provider, the hour is in the future and nothing
    else holds the slot.  With the notification store down the booking
    is created but the request does not succeed: the handler rejects. *)
Lemma C9_counterexample :
  let w2 := fst (exec (Delete Sample.up (Sample.del 2 1) 0 Sample.hour) Sample.w1) in
  let again := Sample.post 2 1 (10 * Sample.hour + 900000) in
  is_error (snd (exec (Delete Sample.up (Sample.del 2 1) 0 Sample.hour) Sample.w1))
  = false
  /\ User.findOne (provider_where 1) (users w2) = Some Sample.barber
  /\ userId again <> 1
  /\ Sample.hour <= DateFns.startOfHour 0 (10 * Sample.hour + 900000)
  /\ Apointment.findAll (slot_where 1 (10 * Sample.hour)) (apointments w2) = []
  /\ snd (exec (Store (Sample.env false true) again Sample.hour) w2)
     = Rejected NotificationError.
Proof.
  cbv zeta. repeat split; try discriminate.
Qed.

(** C9 (amended): after [delete] succeeds on booking [b], a [store]
    request for [b]'s provider and hour passes every check and creates
    the booking, provided the target is a provider, the requester is not
    the provider, the hour is not before the request's [now], and no
    booking other than [b] is active in that slot: the cancelled [b] does
    not count for the availability check.  The caller is answered with
    the new booking exactly when, in addition, the requester's row is
    found and the provider notification succeeds. *)
Theorem C9_cancel_frees_slot env req now now' w w1 body b env2 req2 now2 d2 :
  run (ApointmentController.delete env req now now') w = (w1, Responded 200 body) ->
  Apointment.findByPk (params_id req) (apointments w) = Some b ->
  body_provider_id req2 = Some (Apointment.provider_id b) ->
  body_date req2 = Some d2 ->
  DateFns.startOfHour (tz env2) d2 = Apointment.date b ->
  User.findOne (provider_where (Apointment.provider_id b)) (users w1) <> None ->
  userId req2 <> Apointment.provider_id b ->
  now2 <= Apointment.date b ->
  (forall r, In r (apointments w1) ->
             slot_where (Apointment.provider_id b) (Apointment.date b) r = true ->
             Apointment.id r = Apointment.id b) ->
  let a := created w1 (userId req2) (Apointment.provider_id b) (Apointment.date b) in
  store_accepts env2 req2 now2 w1 = true
  /\ In a (apointments (fst (run (ApointmentController.store env2 req2 now2) w1)))
  /\ apointments (fst (run (ApointmentController.store env2 req2 now2) w1))
     = apointments w1 ++ [a]
  /\ (snd (run (ApointmentController.store env2 req2 now2) w1)
      = Responded 200 (JApointment a)
      <-> User.findByPk (userId req2) (users w1) <> None
          /\ notification_up env2 = true).
Proof.
  intros Hrun Hfind Hp Hd Hh Hprov Hself Hfuture Hothers a.
  destruct (delete_success _ _ _ _ _ _ _ Hrun) as (_ & b0 & Hfind0 & _ & Hrows).
  rewrite Hfind in Hfind0. injection Hfind0 as <-.
  assert (Apointment.findOne
            (slot_where (Apointment.provider_id b) (Apointment.date b))
            (apointments w1) = None) as Hfree.
  { unfold Apointment.findOne.
    destruct (find _ (apointments w1)) as [r|] eqn:E; [exfalso|reflexivity].
    apply find_some in E. destruct E as [Hin Hslot].
    pose proof (Hothers r Hin Hslot) as Hid.
    rewrite Hrows in Hin.
    apply (saved_rows_canceled b now' _ r Hin Hid).
    apply slot_where_eq in Hslot. tauto. }
  assert (store_accepts env2 req2 now2 w1 = true) as Hacc.
  { unfold store_accepts. rewrite Hp, Hd. cbv zeta. rewrite Hh, Hfree.
    rewrite !andb_true_iff, !negb_true_iff. repeat split.
    - apply isNull_false. exact Hprov.
    - unfold strict_neq. apply orb_true_iff. right.
      apply negb_true_iff, Z.eqb_neq. congruence.
    - apply Z.ltb_ge. exact Hfuture. }
  split; [exact Hacc|].
  destruct (store_accepted _ _ _ _ Hacc) as (p' & d' & Hp' & Hd' & Hstore).
  rewrite Hp in Hp'. injection Hp' as <-.
  rewrite Hd in Hd'. injection Hd' as <-.
  cbv zeta in Hstore. rewrite Hh in Hstore. fold a in Hstore. rewrite Hstore.
  rewrite store_notify_table. cbn [with_created apointments].
  split; [apply in_or_app; right; left; reflexivity|].
  split; [reflexivity|].
  unfold store_notify. cbn [with_created users].
  destruct (User.findByPk (userId req2) (users w1)).
  - destruct (notification_up env2); cbn [snd]; split;
      try discriminate; try reflexivity.
    + intros _. split; [discriminate|reflexivity].
    + intros [_ ?]. discriminate.
  - cbn [snd]. split; [discriminate|]. intros [? _]. congruence.
Qed.

Lemma C9_cancel_frees_slot_witness :
  let w2 := fst (exec (Delete Sample.up (Sample.del 2 1) 0 Sample.hour) Sample.w1) in
  let again := Sample.post 2 1 (10 * Sample.hour + 900000) in
  let a := created w2 2 1 (10 * Sample.hour) in
  store_accepts Sample.up again Sample.hour w2 = true
  /\ In a (apointments (fst (run (ApointmentController.store Sample.up again
                                    Sample.hour) w2)))
  /\ snd (run (ApointmentController.store Sample.up again Sample.hour) w2)
     = Responded 200 (JApointment a).
Proof.
  intros w2 again a.
  assert (forall r, In r (apointments w2) ->
                    slot_where 1 (10 * Sample.hour) r = true ->
                    Apointment.id r = 1) as Hothers.
  { intros r [<-|[]] Hslot. reflexivity. }
  destruct (C9_cancel_frees_slot
              Sample.up (Sample.del 2 1) 0 Sample.hour Sample.w1 w2
              (JLoaded (canceled (users Sample.w1) Sample.booked Sample.hour))
              Sample.booked Sample.up again Sample.hour (10 * Sample.hour + 900000)
              eq_refl eq_refl eq_refl eq_refl eq_refl
              ltac:(discriminate) ltac:(discriminate) ltac:(vm_compute; discriminate)
              Hothers) as (Hacc & Hin & _ & Hok).
  split; [exact Hacc|]. split; [exact Hin|].
  apply Hok. split; [discriminate|reflexivity].
Defined.

(* ------------------------------------------------------------------ *)
(** ** The provider's day schedule *)

Lemma provider_found pk us :
  User.findOne (provider_where pk) us <> None <-> flagged_provider pk us.
Proof.
  unfold User.findOne, flagged_provider, provider_where. split.
  - destruct (find _ us) as [u|] eqn:E; [intros _|congruence].
    apply find_some in E. destruct E as [Hin Hu].
    apply andb_true_iff in Hu. destruct Hu as [Hid Hflag].
    exists u. rewrite Z.eqb_eq in Hid. auto.
  - intros (u & Hin & Hid & Hflag) Hnone.
    pose proof (find_none _ _ Hnone u Hin) as Hu. cbn in Hu.
    rewrite Hid, Z.eqb_refl, Hflag in Hu. discriminate.
Qed.

Lemma day_where_on_schedule env req a :
  ScheduleController.day_where env req a = true <-> on_schedule env req a.
Proof.
  unfold ScheduleController.day_where, ScheduleController.between, on_schedule.
  rewrite !andb_true_iff, Z.eqb_eq, isNull_true, !Z.leb_le. tauto.
Qed.

(** C10: [ScheduleController.index] answers a caller who is not flagged
    as a provider with an error and no bookings; it answers a provider
    with exactly the stored bookings whose provider is the caller, which
    are not cancelled, and whose date lies in the day of the queried date,
    from its start to its end, both included.  The table is left as it
    was. *)
Theorem C10_day_schedule env req w :
  (~ flagged_provider (userId req) (users w) ->
   run (ScheduleController.index env req) w
   = (w, Responded 400 (JError "User is not a provider")))
  /\ (flagged_provider (userId req) (users w) ->
      exists l,
        run (ScheduleController.index env req) w = (w, Responded 200 (JList l))
        /\ l = filter (ScheduleController.day_where env req) (apointments w)
        /\ forall a, In a l <-> In a (apointments w) /\ on_schedule env req a).
Proof.
  rewrite index_unfold. split.
  - intros Hnot.
    destruct (User.findOne _ _) eqn:E; [|reflexivity].
    exfalso. apply Hnot, provider_found. congruence.
  - intros Hflag. apply provider_found in Hflag.
    apply isNull_false in Hflag. rewrite Hflag.
    eexists. split; [reflexivity|]. split; [reflexivity|].
    intros a. unfold Apointment.findAll.
    rewrite filter_In, day_where_on_schedule. reflexivity.
Qed.

Lemma C10_day_schedule_witness :
  let day := {| userId := 1; body_provider_id := None;
                provider_id_is_string := false; body_date := None;
                params_id := 0; query_date := 10 * Sample.hour + 1 |} in
  run (ScheduleController.index Sample.up (Sample.del 2 0)) Sample.w1
  = (Sample.w1, Responded 400 (JError "User is not a provider"))
  /\ exists l,
      run (ScheduleController.index Sample.up day) Sample.w1
      = (Sample.w1, Responded 200 (JList l))
      /\ l = [Sample.booked]
      /\ forall a, In a l <-> In a (apointments Sample.w1)
                              /\ on_schedule Sample.up day a.
Proof.
  intros day. split.
  - apply (proj1 (C10_day_schedule Sample.up (Sample.del 2 0) Sample.w1)).
    intros (u & [<-|[<-|[]]] & Hid & Hflag); discriminate.
  - apply (proj2 (C10_day_schedule Sample.up day Sample.w1)).
    exists Sample.barber. split; [left; reflexivity|split; reflexivity].
Defined.

(* ------------------------------------------------------------------ *)
(** ** Further properties of the handlers *)

Lemma store_rows env req now w :
  apointments (fst (run (ApointmentController.store env req now) w)) = apointments w
  \/ exists user_id p h,
      apointments (fst (run (ApointmentController.store env req now) w))
      = apointments w ++ [created w user_id p h].
Proof.
  destruct (body_provider_id req) as [p|] eqn:Hp;
    [|rewrite store_invalid by (left; exact Hp); left; reflexivity].
  destruct (body_date req) as [d|] eqn:Hd;
    [|rewrite store_invalid by (right; exact Hd); left; reflexivity].
  rewrite (store_unfold env req now w p d Hp Hd).
  destruct (isNull (User.findOne _ _)); [left; reflexivity|].
  destruct (strict_neq req p); cbn [negb]; [|left; reflexivity].
  destruct (_ <? now); [left; reflexivity|].
  destruct (isNull (Apointment.findOne _ _)); [|left; reflexivity].
  right. cbv zeta. rewrite store_notify_table. eexists _, _, _. reflexivity.
Qed.

Lemma store0_rows env req now w :
  apointments (fst (run (ApointmentController0.store env req now) w)) = apointments w
  \/ exists user_id p h,
      apointments (fst (run (ApointmentController0.store env req now) w))
      = apointments w ++ [created w user_id p h].
Proof.
  destruct (body_provider_id req) as [p|] eqn:Hp;
    [|rewrite store0_invalid by (left; exact Hp); left; reflexivity].
  destruct (body_date req) as [d|] eqn:Hd;
    [|rewrite store0_invalid by (right; exact Hd); left; reflexivity].
  rewrite (store0_unfold env req now w p d Hp Hd).
  destruct (isNull (User.findOne _ _)); [left; reflexivity|].
  destruct (_ <? now); [left; reflexivity|].
  destruct (isNull (Apointment.findOne _ _)); [|left; reflexivity].
  right. eexists _, _, _. reflexivity.
Qed.

(** X1: a request answered with an error body has written nothing: the
    world after it is the world before it, for every handler. *)
Theorem error_response_writes_nothing c w :
  is_error (snd (exec c w)) = true -> fst (exec c w) = w.
Proof.
  destruct c as [env req now|env req now|env req now now'|env req]; cbn [exec].
  - destruct (body_provider_id req) as [p|] eqn:Hp;
      [|rewrite store_invalid by (left; exact Hp); reflexivity].
    destruct (body_date req) as [d|] eqn:Hd;
      [|rewrite store_invalid by (right; exact Hd); reflexivity].
    rewrite (store_unfold env req now w p d Hp Hd).
    destruct (isNull (User.findOne _ _)); [reflexivity|].
    destruct (strict_neq req p); cbn [negb]; [|reflexivity].
    destruct (_ <? now); [reflexivity|].
    destruct (isNull (Apointment.findOne _ _)); [|reflexivity].
    cbv zeta. unfold store_notify.
    destruct (User.findByPk _ _); [|discriminate].
    destruct (notification_up env); discriminate.
  - destruct (body_provider_id req) as [p|] eqn:Hp;
      [|rewrite store0_invalid by (left; exact Hp); reflexivity].
    destruct (body_date req) as [d|] eqn:Hd;
      [|rewrite store0_invalid by (right; exact Hd); reflexivity].
    rewrite (store0_unfold env req now w p d Hp Hd).
    destruct (isNull (User.findOne _ _)); [reflexivity|].
    destruct (_ <? now); [reflexivity|].
    destruct (isNull (Apointment.findOne _ _)); [discriminate|reflexivity].
  - rewrite delete_unfold.
    destruct (Apointment.findByPk _ _); [|reflexivity].
    destruct (negb _); [reflexivity|].
    destruct (_ <? now); [reflexivity|].
    cbv zeta. destruct (queue_up env); discriminate.
  - rewrite index_unfold. destruct (isNull _); reflexivity.
Qed.

Lemma error_response_writes_nothing_witness :
  fst (exec (Delete Sample.up (Sample.del 1 1) 0 0) Sample.w1) = Sample.w1.
Proof.
  apply (error_response_writes_nothing
           (Delete Sample.up (Sample.del 1 1) 0 0) Sample.w1).
  reflexivity.
Defined.

(** X2: a [store] answered with the booking has written exactly one
    notification: it is addressed to the booked provider and its text
    carries the requester's name and the formatted hour of the booking.
    The job queue is untouched. *)
Theorem store_notifies_provider_once env req now w w' body :
  run (ApointmentController.store env req now) w = (w', Responded 200 body) ->
  exists a u,
    body = JApointment a
    /\ body_provider_id req = Some (Apointment.provider_id a)
    /\ User.findByPk (userId req) (users w) = Some u
    /\ notifications w' =
         notifications w ++
           [ {| Notification.content :=
                  ("Novo agendamento de " ++ User.name u ++ " para "
                     ++ format env (Apointment.date a))%string;
                Notification.user := Apointment.provider_id a |} ]
    /\ jobs w' = jobs w.
Proof.
  destruct (body_provider_id req) as [p|] eqn:Hp;
    [|rewrite store_invalid by (left; exact Hp); discriminate].
  destruct (body_date req) as [d|] eqn:Hd;
    [|rewrite store_invalid by (right; exact Hd); discriminate].
  rewrite (store_unfold env req now w p d Hp Hd).
  destruct (isNull (User.findOne _ _)); [discriminate|].
  destruct (strict_neq req p); cbn [negb]; [|discriminate].
  destruct (_ <? now); [discriminate|].
  destruct (isNull (Apointment.findOne _ _)); [|discriminate].
  cbv zeta. unfold store_notify. cbn [with_created users].
  destruct (User.findByPk (userId req) (users w)) as [u|]; [|discriminate].
  destruct (notification_up env); [|discriminate].
  intros E. injection E as <- <-.
  eexists. exists u. repeat split.
Qed.

Lemma store_notifies_provider_once_witness :
  exists a u,
    JApointment Sample.booked = JApointment a
    /\ body_provider_id (Sample.post 2 1 (10 * Sample.hour + 300000))
       = Some (Apointment.provider_id a)
    /\ User.findByPk 2 (users Sample.w0) = Some u
    /\ notifications Sample.w1 =
         notifications Sample.w0 ++
           [ {| Notification.content :=
                  ("Novo agendamento de " ++ User.name u ++ " para "
                     ++ format Sample.up (Apointment.date a))%string;
                Notification.user := Apointment.provider_id a |} ]
    /\ jobs Sample.w1 = jobs Sample.w0.
Proof.
  apply (store_notifies_provider_once Sample.up
           (Sample.post 2 1 (10 * Sample.hour + 300000)) 0 Sample.w0 Sample.w1
           (JApointment Sample.booked)).
  reflexivity.
Defined.

(** X3: a request for a provider other than the caller is answered
    [PastDate] whenever the requested date is before [now], and also when
    it lies later in the hour that is running at [now]: the hour that has
    begun cannot be booked. *)
Theorem store_rejects_running_hour env req now w p d :
  body_provider_id req = Some p ->
  body_date req = Some d ->
  User.findOne (provider_where p) (users w) <> None ->
  p <> userId req ->
  d < now
  \/ (DateFns.startOfHour (tz env) d = DateFns.startOfHour (tz env) now
      /\ DateFns.startOfHour (tz env) now <> now) ->
  run (ApointmentController.store env req now) w = (w, PastDate).
Proof.
  intros Hp Hd Hprov Hself Hpast.
  rewrite (store_unfold env req now w p d Hp Hd).
  apply isNull_false in Hprov. rewrite Hprov.
  rewrite (strict_neq_other req p Hself). cbn [negb].
  assert (DateFns.startOfHour (tz env) d < now) as Hlt.
  { pose proof (startOfHour_bounds (tz env) d).
    pose proof (startOfHour_bounds (tz env) now).
    destruct Hpast as [?|[Heq ?]]; [lia|]. rewrite Heq. lia. }
  apply Z.ltb_lt in Hlt. rewrite Hlt. reflexivity.
Qed.

Lemma store_rejects_running_hour_witness :
  run (ApointmentController.store Sample.up
         (Sample.post 2 1 (10 * Sample.hour + 1800000)) (10 * Sample.hour + 60000))
      Sample.w0
  = (Sample.w0, PastDate).
Proof.
  apply (store_rejects_running_hour Sample.up
           (Sample.post 2 1 (10 * Sample.hour + 1800000))
           (10 * Sample.hour + 60000) Sample.w0 1 (10 * Sample.hour + 1800000)).
  - reflexivity.
  - reflexivity.
  - discriminate.
  - discriminate.
  - right. split; [reflexivity|discriminate].
Defined.

(** X4: no request changes a stored booking other than the one a
    [delete] names: whatever [findByPk] found before the request it
    finds, unchanged, after it. *)
Theorem requests_keep_other_rows c w pk r :
  Apointment.findByPk pk (apointments w) = Some r ->
  (forall env req now now', c = Delete env req now now' -> params_id req <> pk) ->
  Apointment.findByPk pk (apointments (fst (exec c w))) = Some r.
Proof.
  intros Hfind Hother.
  destruct c as [env req now|env req now|env req now now'|env req]; cbn [exec].
  - destruct (store_rows env req now w) as [->|(u & p & h & ->)];
      [exact Hfind|apply findByPk_app; exact Hfind].
  - destruct (store0_rows env req now w) as [->|(u & p & h & ->)];
      [exact Hfind|apply findByPk_app; exact Hfind].
  - specialize (Hother env req now now' eq_refl).
    rewrite delete_unfold.
    destruct (Apointment.findByPk (params_id req) (apointments w)) as [b|] eqn:Hb;
      [|exact Hfind].
    destruct (negb _); [exact Hfind|].
    destruct (_ <? now); [exact Hfind|].
    assert (Apointment.findByPk pk
              (Apointment.save (Apointment.set_canceled_at b (Some now'))
                               (apointments w)) = Some r) as Hsaved.
    { rewrite findByPk_save, Hfind. cbn [option_map Apointment.set_canceled_at
                                          Apointment.id].
      destruct (findByPk_id _ _ _ Hfind) as [Hr _].
      destruct (findByPk_id _ _ _ Hb) as [Hbid _].
      assert ((Apointment.id r =? Apointment.id b) = false) as ->
          by (apply Z.eqb_neq; congruence).
      reflexivity. }
    cbv zeta. destruct (queue_up env); exact Hsaved.
  - rewrite index_unfold. destruct (isNull _); exact Hfind.
Qed.

Lemma requests_keep_other_rows_witness :
  Apointment.findByPk 1
    (apointments (fst (exec (Delete Sample.up (Sample.del 2 7) 0 0) Sample.w1)))
  = Some Sample.booked.
Proof.
  apply (requests_keep_other_rows (Delete Sample.up (Sample.del 2 7) 0 0)
           Sample.w1 1 Sample.booked).
  - reflexivity.
  - intros env req now now' E. injection E as _ <- _ _. discriminate.
Defined.

(** X5: the two [store] variants decide alike on every request that is
    not a self-booking: they leave the same appointments table and the
    same primary-key sequence, and when the variant that notifies
    answers with a booking, the other answers with the same booking. *)
Theorem store_variants_agree env req now w :
  body_provider_id req <> Some (userId req) ->
  apointments (fst (run (ApointmentController0.store env req now) w))
  = apointments (fst (run (ApointmentController.store env req now) w))
  /\ next_id (fst (run (ApointmentController0.store env req now) w))
     = next_id (fst (run (ApointmentController.store env req now) w))
  /\ forall body,
      snd (run (ApointmentController.store env req now) w) = Responded 200 body ->
      snd (run (ApointmentController0.store env req now) w) = Responded 200 body.
Proof.
  intros Hself.
  destruct (body_provider_id req) as [p|] eqn:Hp;
    [|rewrite store_invalid, store0_invalid by (left; exact Hp);
      repeat split; auto].
  destruct (body_date req) as [d|] eqn:Hd;
    [|rewrite store_invalid, store0_invalid by (right; exact Hd);
      repeat split; auto].
  rewrite (store_unfold env req now w p d Hp Hd),
    (store0_unfold env req now w p d Hp Hd).
  rewrite (strict_neq_other req p) by congruence. cbn [negb].
  destruct (isNull (User.findOne _ _)); [repeat split; auto|].
  destruct (_ <? now); [repeat split; auto|].
  destruct (isNull (Apointment.findOne _ _));
    [|repeat split; auto; cbn; discriminate].
  cbv zeta. unfold store_notify. cbn [with_created users].
  destruct (User.findByPk _ _); [|repeat split; auto; cbn; discriminate].
  destruct (notification_up env); repeat split; auto; cbn; discriminate.
Qed.

Lemma store_variants_agree_witness :
  apointments (fst (run (ApointmentController0.store Sample.up
                           (Sample.post 2 1 (10 * Sample.hour)) 0) Sample.w0))
  = [Sample.booked]
  /\ snd (run (ApointmentController0.store Sample.up
                 (Sample.post 2 1 (10 * Sample.hour)) 0) Sample.w0)
     = Responded 200 (JApointment Sample.booked).
Proof.
  destruct (store_variants_agree Sample.up (Sample.post 2 1 (10 * Sample.hour)) 0
              Sample.w0 ltac:(discriminate)) as (Hrows & _ & Hsame).
  split; [exact Hrows|].
  apply Hsame. reflexivity.
Defined.

(** X6: a [delete] answered with the booking has put exactly one
    [CancellationMail] job on the queue; the job carries the booking as
    saved, with [canceled_at] set, together with the name and email of
    its provider and the name of its requester, as the include loads
    them.  The response carries the same.  No notification is written. *)
Theorem delete_enqueues_once env req now now' w w' body :
  run (ApointmentController.delete env req now now') w = (w', Responded 200 body) ->
  exists b j,
    Apointment.findByPk (params_id req) (apointments w) = Some b
    /\ jobs w' = jobs w ++ [j]
    /\ Queue.job_key j = Queue.CancellationMail
    /\ Apointment.row (Queue.appointment j)
       = Apointment.set_canceled_at b (Some now')
    /\ Apointment.provider (Queue.appointment j)
       = option_map (fun u => (User.name u, User.email u))
                    (User.findByPk (Apointment.provider_id b) (users w))
    /\ Apointment.user (Queue.appointment j)
       = option_map User.name (User.findByPk (Apointment.user_id b) (users w))
    /\ body = JLoaded (Queue.appointment j)
    /\ notifications w' = notifications w.
Proof.
  rewrite delete_unfold.
  destruct (Apointment.findByPk _ _) as [b|]; [|discriminate].
  destruct (negb _); [discriminate|].
  destruct (_ <? now); [discriminate|].
  cbv zeta. destruct (queue_up env); [|discriminate].
  intros E. injection E as <- <-.
  exists b. eexists. repeat split.
Qed.

Lemma delete_enqueues_once_witness :
  exists b j,
    Apointment.findByPk 1 (apointments Sample.w1) = Some b
    /\ jobs (fst (exec (Delete Sample.up (Sample.del 2 1) 0 1) Sample.w1))
       = jobs Sample.w1 ++ [j]
    /\ Queue.job_key j = Queue.CancellationMail
    /\ Apointment.row (Queue.appointment j)
       = Apointment.set_canceled_at b (Some 1)
    /\ Apointment.provider (Queue.appointment j)
       = option_map (fun u => (User.name u, User.email u))
                    (User.findByPk (Apointment.provider_id b) (users Sample.w1))
    /\ Apointment.user (Queue.appointment j)
       = option_map User.name
                    (User.findByPk (Apointment.user_id b) (users Sample.w1))
    /\ JLoaded (canceled (users Sample.w1) Sample.booked 1)
       = JLoaded (Queue.appointment j)
    /\ notifications (fst (exec (Delete Sample.up (Sample.del 2 1) 0 1) Sample.w1))
       = notifications Sample.w1.
Proof.
  apply (delete_enqueues_once Sample.up (Sample.del 2 1) 0 1 Sample.w1
           (fst (exec (Delete Sample.up (Sample.del 2 1) 0 1) Sample.w1))
           (JLoaded (canceled (users Sample.w1) Sample.booked 1))).
  reflexivity.
Defined.

(** The job of the sample cancellation, spelled out. *)
Lemma delete_job_sample :
  jobs (fst (exec (Delete Sample.up (Sample.del 2 1) 0 1) Sample.w1))
  = [ {| Queue.job_key := Queue.CancellationMail;
         Queue.appointment :=
           {| Apointment.row := Apointment.set_canceled_at Sample.booked (Some 1);
              Apointment.provider := Some ("Barber", "barber@gobarber.com")%string;
              Apointment.user := Some "Client"%string |} |} ].
Proof. reflexivity. Qed.

(** X7: only the requester cancels, and only two hours ahead.  A
    [delete] is answered with the booking only if the caller is the
    booking's requester and [now] is not after the booking's date minus
    two hours; any other caller is answered [NotOwner] with nothing
    written, however early or late, the booking's provider included. *)
Theorem delete_only_by_requester :
  (forall env req now now' w w' body,
      run (ApointmentController.delete env req now now') w
      = (w', Responded 200 body) ->
      exists b,
        Apointment.findByPk (params_id req) (apointments w) = Some b
        /\ Apointment.user_id b = userId req
        /\ now + 2 * DateFns.MS_PER_HOUR <= Apointment.date b)
  /\
  (forall env req now now' w b,
      Apointment.findByPk (params_id req) (apointments w) = Some b ->
      Apointment.user_id b <> userId req ->
      run (ApointmentController.delete env req now now') w = (w, NotOwner)).
Proof.
  split.
  - intros env req now now' w w' body. rewrite delete_unfold.
    destruct (Apointment.findByPk _ _) as [b|]; [|discriminate].
    destruct (Z.eqb_spec (Apointment.user_id b) (userId req)) as [Hown|];
      [|discriminate].
    cbn [negb].
    destruct (Z.ltb_spec (DateFns.subHours (Apointment.date b) 2) now) as [|Hge];
      [discriminate|].
    intros _. exists b. repeat split; [exact Hown|].
    unfold DateFns.subHours in Hge. lia.
  - intros env req now now' w b Hfind Hother.
    rewrite delete_unfold, Hfind.
    apply Z.eqb_neq in Hother. rewrite Hother. reflexivity.
Qed.

Lemma delete_only_by_requester_witness :
  (exists b,
      Apointment.findByPk 1 (apointments Sample.w1) = Some b
      /\ Apointment.user_id b = 2
      /\ 0 + 2 * DateFns.MS_PER_HOUR <= Apointment.date b)
  /\ run (ApointmentController.delete Sample.up (Sample.del 1 1) 0 0) Sample.w1
     = (Sample.w1, NotOwner).
Proof.
  split.
  - apply (proj1 delete_only_by_requester Sample.up (Sample.del 2 1) 0 1 Sample.w1
             (fst (exec (Delete Sample.up (Sample.del 2 1) 0 1) Sample.w1))
             (JLoaded (canceled (users Sample.w1) Sample.booked 1))).
    reflexivity.
  - apply (proj2 delete_only_by_requester Sample.up (Sample.del 1 1) 0 0 Sample.w1
             Sample.booked).
    + reflexivity.
    + discriminate.
Defined.

(* ------------------------------------------------------------------ *)
(** ** Primary keys *)

Lemma exec_shape c w :
  (apointments (fst (exec c w)) = apointments w
   /\ next_id (fst (exec c w)) = next_id w)
  \/ (exists u p h,
         apointments (fst (exec c w)) = apointments w ++ [created w u p h]
         /\ next_id (fst (exec c w)) = next_id w + 1)
  \/ (exists a now',
         Apointment.findByPk (Apointment.id a) (apointments w) = Some a
         /\ apointments (fst (exec c w))
            = Apointment.save (Apointment.set_canceled_at a (Some now'))
                              (apointments w)
         /\ next_id (fst (exec c w)) = next_id w).
Proof.
  destruct c as [env req now|env req now|env req now now'|env req]; cbn [exec].
  - destruct (body_provider_id req) as [p|] eqn:Hp;
      [|rewrite store_invalid by (left; exact Hp); left; split; reflexivity].
    destruct (body_date req) as [d|] eqn:Hd;
      [|rewrite store_invalid by (right; exact Hd); left; split; reflexivity].
    rewrite (store_unfold env req now w p d Hp Hd).
    destruct (isNull (User.findOne _ _)); [left; split; reflexivity|].
    destruct (strict_neq req p); cbn [negb]; [|left; split; reflexivity].
    destruct (_ <? now); [left; split; reflexivity|].
    destruct (isNull (Apointment.findOne _ _)); [|left; split; reflexivity].
    right. left. eexists _, _, _. cbv zeta. unfold store_notify.
    destruct (User.findByPk _ _); [|split; reflexivity].
    destruct (notification_up env); split; reflexivity.
  - destruct (body_provider_id req) as [p|] eqn:Hp;
      [|rewrite store0_invalid by (left; exact Hp); left; split; reflexivity].
    destruct (body_date req) as [d|] eqn:Hd;
      [|rewrite store0_invalid by (right; exact Hd); left; split; reflexivity].
    rewrite (store0_unfold env req now w p d Hp Hd).
    destruct (isNull (User.findOne _ _)); [left; split; reflexivity|].
    destruct (_ <? now); [left; split; reflexivity|].
    destruct (isNull (Apointment.findOne _ _)); [|left; split; reflexivity].
    right. left. eexists _, _, _. split; reflexivity.
  - rewrite delete_unfold.
    destruct (Apointment.findByPk (params_id req) (apointments w)) as [b|] eqn:Hb;
      [|left; split; reflexivity].
    destruct (negb _); [left; split; reflexivity|].
    destruct (_ <? now); [left; split; reflexivity|].
    right. right. exists b, now'.
    destruct (findByPk_id _ _ _ Hb) as [Hid _].
    split; [rewrite Hid; exact Hb|].
    cbv zeta. destruct (queue_up env); split; reflexivity.
  - rewrite index_unfold. left. destruct (isNull _); split; reflexivity.
Qed.

Lemma exec_ids_fresh c w : ids_fresh w -> ids_fresh (fst (exec c w)).
Proof.
  intros Hfresh x Hin.
  destruct (exec_shape c w) as [[Hr Hn]|[(u & p & h & Hr & Hn)|(a & t & Ha & Hr & Hn)]];
    rewrite Hr in Hin; rewrite Hn.
  - apply Hfresh, Hin.
  - apply in_app_or in Hin. destruct Hin as [Hin|[<-|[]]].
    + specialize (Hfresh x Hin). lia.
    + cbn. lia.
  - unfold Apointment.save in Hin. apply in_map_iff in Hin.
    destruct Hin as (y & Hy & Hiny).
    specialize (Hfresh y Hiny).
    destruct (Apointment.id y =? Apointment.id (Apointment.set_canceled_at a (Some t)))
      eqn:E; subst x; [|exact Hfresh].
    apply Z.eqb_eq in E. rewrite <- E. exact Hfresh.
Qed.

Lemma findByPk_none_app pk rows extra :
  Apointment.findByPk pk rows = None ->
  Apointment.findByPk pk (rows ++ extra) = Apointment.findByPk pk extra.
Proof.
  unfold Apointment.findByPk.
  induction rows as [|x rows IH]; cbn; [reflexivity|].
  destruct (Apointment.id x =? pk); [discriminate|exact IH].
Qed.

Lemma findByPk_fresh w :
  ids_fresh w -> Apointment.findByPk (next_id w) (apointments w) = None.
Proof.
  intros Hfresh.
  destruct (Apointment.findByPk _ _) as [r|] eqn:E; [|reflexivity].
  destruct (findByPk_id _ _ _ E) as [Hid Hin].
  specialize (Hfresh r Hin). lia.
Qed.

(** The booking a successful [store] answers with is the one [findByPk]
    returns for its id. *)
Lemma store_success_found env req now w w1 a :
  ids_fresh w ->
  run (ApointmentController.store env req now) w = (w1, Responded 200 (JApointment a)) ->
  Apointment.findByPk (Apointment.id a) (apointments w1) = Some a.
Proof.
  intros Hfresh Hrun.
  destruct (store_success _ _ _ _ _ _ Hrun) as (_ & p & d & _ & _ & Hb & Hrows).
  injection Hb as ->. rewrite Hrows. cbn [created Apointment.id].
  rewrite findByPk_none_app by (apply findByPk_fresh; exact Hfresh).
  unfold Apointment.findByPk. cbn. rewrite Z.eqb_refl. reflexivity.
Qed.

(** X8: a booking made less than two hours before its hour can never be
    cancelled.  Once [store] has answered with it, and whatever requests
    come in between, every later [delete] of its id is refused:
    [TooLateToCancel] for its requester, [NotOwner] for anyone else. *)
Theorem late_booking_never_cancellable
        env req now w w1 a cs env2 req2 now2 now2' :
  ids_fresh w ->
  run (ApointmentController.store env req now) w = (w1, Responded 200 (JApointment a)) ->
  Apointment.date a < now + 2 * DateFns.MS_PER_HOUR ->
  params_id req2 = Apointment.id a ->
  now <= now2 ->
  run (ApointmentController.delete env2 req2 now2 now2') (execs cs w1)
  = (execs cs w1,
     if Apointment.user_id a =? userId req2 then TooLateToCancel else NotOwner).
Proof.
  intros Hfresh Hrun Hlate Hid Hclock.
  pose proof (store_success_found _ _ _ _ _ _ Hfresh Hrun) as Hfound.
  destruct (execs_invariant (keeps (Apointment.id a) a) (keeps_step _ _) cs w1)
    as (r & Hr & Hid' & Huser & _ & Hdate & _).
  { exists a. split; [exact Hfound|apply kept_refl]. }
  rewrite delete_unfold, Hid, Hr, Huser, Hdate.
  destruct (Apointment.user_id a =? userId req2); [|reflexivity].
  cbn [negb].
  assert ((DateFns.subHours (Apointment.date a) 2 <? now2) = true) as ->.
  { apply Z.ltb_lt. unfold DateFns.subHours. lia. }
  reflexivity.
Qed.

Lemma late_booking_never_cancellable_witness :
  let w1 := fst (exec (Store Sample.up (Sample.post 2 1 (10 * Sample.hour))
                             (9 * Sample.hour)) Sample.w0) in
  let cs := [Schedule Sample.up (Sample.post 1 1 0)] in
  run (ApointmentController.delete Sample.up (Sample.del 2 1)
         (9 * Sample.hour + 1) (9 * Sample.hour + 2)) (execs cs w1)
  = (execs cs w1, TooLateToCancel).
Proof.
  intros w1 cs.
  apply (late_booking_never_cancellable
           Sample.up (Sample.post 2 1 (10 * Sample.hour)) (9 * Sample.hour)
           Sample.w0 w1 Sample.booked cs
           Sample.up (Sample.del 2 1) (9 * Sample.hour + 1) (9 * Sample.hour + 2)).
  - intros x [].
  - reflexivity.
  - reflexivity.
  - reflexivity.
  - vm_compute. discriminate.
Defined.

(* ------------------------------------------------------------------ *)
(** ** Calendar days *)

Section Days.
Import DateFns.
Variable zone : Z.

Lemma same_day_iff q x :
  startOfDay zone q <= x <= endOfDay zone q
  <-> startOfDay zone x = startOfDay zone q.
Proof.
  unfold endOfDay, startOfDay, MS_PER_DAY.
  pose proof (Z.div_mod (x + zone) 86400000 ltac:(discriminate)) as Hx.
  pose proof (Z.div_mod (q + zone) 86400000 ltac:(discriminate)) as Hq.
  pose proof (Z.mod_pos_bound (x + zone) 86400000 ltac:(reflexivity)) as Bx.
  pose proof (Z.mod_pos_bound (q + zone) 86400000 ltac:(reflexivity)) as Bq.
  lia.
Qed.

Lemma startOfHour_same_day t :
  startOfDay zone t <= startOfHour zone t <= endOfDay zone t.
Proof.
  unfold endOfDay, startOfDay, startOfHour, MS_PER_DAY, MS_PER_HOUR.
  pose proof (Z.div_mod (t + zone) 86400000 ltac:(discriminate)) as Hd.
  pose proof (Z.div_mod (t + zone) 3600000 ltac:(discriminate)) as Hh.
  pose proof (Z.mod_pos_bound (t + zone) 86400000 ltac:(reflexivity)) as Bd.
  pose proof (Z.mod_pos_bound (t + zone) 3600000 ltac:(reflexivity)) as Bh.
  lia.
Qed.
End Days.

(* ------------------------------------------------------------------ *)
(** ** Further properties of the day schedule *)

Lemma day_where_same_day env req a :
  ScheduleController.day_where env req a = true
  <-> Apointment.provider_id a = userId req
      /\ Apointment.canceled_at a = None
      /\ DateFns.startOfDay (tz env) (Apointment.date a)
         = DateFns.startOfDay (tz env) (query_date req).
Proof.
  rewrite day_where_on_schedule. unfold on_schedule.
  rewrite same_day_iff. reflexivity.
Qed.

(** X9: the schedule is by calendar day.  A provider is shown a booking
    for a queried date exactly when the booking is theirs, is active, and
    its date falls in the calendar day of the queried date; and two
    requests of the same caller whose queried dates fall in the same day
    are answered alike. *)
Theorem schedule_by_calendar_day env req w :
  (forall l a,
      run (ScheduleController.index env req) w = (w, Responded 200 (JList l)) ->
      (In a l <->
       In a (apointments w)
       /\ Apointment.provider_id a = userId req
       /\ Apointment.canceled_at a = None
       /\ DateFns.startOfDay (tz env) (Apointment.date a)
          = DateFns.startOfDay (tz env) (query_date req)))
  /\ (forall req',
         userId req' = userId req ->
         DateFns.startOfDay (tz env) (query_date req')
         = DateFns.startOfDay (tz env) (query_date req) ->
         run (ScheduleController.index env req') w
         = run (ScheduleController.index env req) w).
Proof.
  split.
  - intros l a. rewrite index_unfold.
    destruct (isNull _); [discriminate|].
    intros E. injection E as <-.
    unfold Apointment.findAll. rewrite filter_In, day_where_same_day. reflexivity.
  - intros req' Huser Hday. rewrite !index_unfold, Huser.
    destruct (isNull _); [reflexivity|].
    do 3 f_equal. unfold Apointment.findAll. apply filter_ext.
    intros a.
    destruct (ScheduleController.day_where env req a) eqn:E.
    + apply day_where_same_day. apply day_where_same_day in E.
      rewrite Huser, Hday. exact E.
    + destruct (ScheduleController.day_where env req' a) eqn:E'; [|reflexivity].
      apply day_where_same_day in E'. rewrite Huser, Hday in E'.
      apply day_where_same_day in E'. congruence.
Qed.

Lemma schedule_by_calendar_day_witness :
  let morning := SampleList.get 1 (10 * Sample.hour + 1) in
  let evening := SampleList.get 1 (23 * Sample.hour) in
  (In Sample.booked [Sample.booked] <->
   In Sample.booked (apointments Sample.w1)
   /\ Apointment.provider_id Sample.booked = 1
   /\ Apointment.canceled_at Sample.booked = None
   /\ DateFns.startOfDay 0 (Apointment.date Sample.booked)
      = DateFns.startOfDay 0 (10 * Sample.hour + 1))
  /\ run (ScheduleController.index Sample.up evening) Sample.w1
     = run (ScheduleController.index Sample.up morning) Sample.w1.
Proof.
  intros morning evening. split.
  - apply (proj1 (schedule_by_calendar_day Sample.up morning Sample.w1)
             [Sample.booked] Sample.booked).
    reflexivity.
  - apply (proj2 (schedule_by_calendar_day Sample.up morning Sample.w1) evening);
      reflexivity.
Defined.

(** X10: a booking just made is on the provider's schedule: after [store]
    has answered with a booking, the booked provider's schedule for the
    requested date, read in the same zone, lists that booking. *)
Theorem schedule_after_store env req now w w1 a d env2 req2 :
  run (ApointmentController.store env req now) w = (w1, Responded 200 (JApointment a)) ->
  body_date req = Some d ->
  userId req2 = Apointment.provider_id a ->
  query_date req2 = d ->
  tz env2 = tz env ->
  exists l,
    run (ScheduleController.index env2 req2) w1 = (w1, Responded 200 (JList l))
    /\ In a l.
Proof.
  intros Hrun Hd Huser Hq Hz.
  destruct (store_success _ _ _ _ _ _ Hrun) as (Hacc & p & d' & Hp & Hd' & Hb & Hrows).
  rewrite Hd in Hd'. injection Hd' as <-. injection Hb as ->.
  cbn [created Apointment.provider_id] in Huser.
  rewrite index_unfold.
  assert (isNull (User.findOne (provider_where (userId req2)) (users w1)) = false)
    as ->.
  { replace (users w1) with (users (fst (exec (Store env req now) w)))
      by (cbn [exec]; rewrite Hrun; reflexivity).
    rewrite exec_users, Huser.
    unfold store_accepts in Hacc. rewrite Hp, Hd in Hacc. cbv zeta in Hacc.
    rewrite !andb_true_iff, !negb_true_iff in Hacc. tauto. }
  eexists. split; [reflexivity|].
  unfold Apointment.findAll. apply filter_In. split.
  - rewrite Hrows. apply in_or_app. right. left. reflexivity.
  - apply day_where_on_schedule. unfold on_schedule.
    cbn [created Apointment.provider_id Apointment.canceled_at Apointment.date].
    rewrite Huser, Hq, Hz.
    split; [reflexivity|]. split; [reflexivity|].
    apply startOfHour_same_day.
Qed.

Lemma schedule_after_store_witness :
  exists l,
    run (ScheduleController.index Sample.up
           (SampleList.get 1 (10 * Sample.hour + 300000))) Sample.w1
    = (Sample.w1, Responded 200 (JList l))
    /\ In Sample.booked l.
Proof.
  apply (schedule_after_store Sample.up
           (Sample.post 2 1 (10 * Sample.hour + 300000)) 0 Sample.w0 Sample.w1
           Sample.booked (10 * Sample.hour + 300000)
           Sample.up (SampleList.get 1 (10 * Sample.hour + 300000)));
    reflexivity.
Defined.

(** X11: a cancelled booking leaves the schedule: after [delete] has
    answered with the booking, no schedule of any provider for any date
    lists a booking with that id. *)
Theorem schedule_after_cancel env req now now' w w' body env2 req2 l a :
  run (ApointmentController.delete env req now now') w = (w', Responded 200 body) ->
  run (ScheduleController.index env2 req2) w' = (w', Responded 200 (JList l)) ->
  In a l ->
  Apointment.id a <> params_id req.
Proof.
  intros Hdel Hidx Hin Hid.
  destruct (delete_success _ _ _ _ _ _ _ Hdel) as (_ & b & Hb & _ & Hrows).
  destruct (findByPk_id _ _ _ Hb) as [Hbid _].
  rewrite index_unfold in Hidx.
  destruct (isNull _); [discriminate|].
  injection Hidx as <-.
  unfold Apointment.findAll in Hin. apply filter_In in Hin.
  destruct Hin as [Hin Hday].
  apply day_where_on_schedule in Hday. destruct Hday as (_ & Hactive & _).
  rewrite Hrows in Hin.
  apply (saved_rows_canceled b now' _ a Hin); congruence.
Qed.

Lemma schedule_after_cancel_witness :
  run (ScheduleController.index Sample.up (SampleList.get 1 (10 * Sample.hour)))
      SampleList.w3
  = (SampleList.w3, Responded 200 (JList [SampleList.booked2]))
  /\ Apointment.id SampleList.booked2 <> 1.
Proof.
  split; [reflexivity|].
  apply (schedule_after_cancel Sample.up (Sample.del 2 1) 0 1
           SampleList.w2 SampleList.w3
           (JLoaded (canceled (users SampleList.w2) Sample.booked 1))
           Sample.up (SampleList.get 1 (10 * Sample.hour))
           [SampleList.booked2] SampleList.booked2).
  - reflexivity.
  - reflexivity.
  - left. reflexivity.
Defined.

Lemma active_at_in p d rows a :
  In a rows -> slot_where p d a = true -> (1 <= active_at p d rows)%nat.
Proof.
  intros Hin Hslot. unfold active_at.
  assert (In a (filter (slot_where p d) rows)) as H
      by (apply filter_In; split; assumption).
  destruct (filter (slot_where p d) rows); [destruct H|cbn; lia].
Qed.

Lemma slot_unique_tail x rows : slot_unique (x :: rows) -> slot_unique rows.
Proof.
  intros Hu p d. specialize (Hu p d). unfold active_at in *. cbn [filter] in Hu.
  destruct (slot_where p d x); cbn [List.length] in Hu; lia.
Qed.

(** X12: a schedule never shows two bookings at the same date: when the
    table holds at most one active booking per provider and date, the
    dates of the bookings listed for a provider are pairwise different. *)
Theorem schedule_dates_distinct env req w l :
  slot_unique (apointments w) ->
  run (ScheduleController.index env req) w = (w, Responded 200 (JList l)) ->
  NoDup (map Apointment.date l).
Proof.
  intros Hu. rewrite index_unfold.
  destruct (isNull _); [discriminate|].
  intros E. injection E as <-.
  unfold Apointment.findAll.
  induction (apointments w) as [|x rows IH]; cbn [filter map]; [constructor|].
  specialize (IH (slot_unique_tail _ _ Hu)).
  destruct (ScheduleController.day_where env req x) eqn:Ex; [|exact IH].
  cbn [map]. constructor; [|exact IH].
  intros Hin. apply in_map_iff in Hin. destruct Hin as (y & Hdate & Hy).
  apply filter_In in Hy. destruct Hy as [Hy Ey].
  apply day_where_on_schedule in Ex. destruct Ex as (Hpx & Hcx & _).
  apply day_where_on_schedule in Ey. destruct Ey as (Hpy & Hcy & _).
  specialize (Hu (userId req) (Apointment.date x)).
  unfold active_at in Hu. cbn [filter] in Hu.
  assert (slot_where (userId req) (Apointment.date x) x = true) as Hsx
      by (apply slot_where_eq; auto).
  assert (slot_where (userId req) (Apointment.date x) y = true) as Hsy
      by (apply slot_where_eq; auto).
  rewrite Hsx in Hu. cbn [List.length] in Hu.
  pose proof (active_at_in _ _ _ _ Hy Hsy) as Hone. unfold active_at in Hone.
  lia.
Qed.

Lemma schedule_dates_distinct_witness :
  NoDup (map Apointment.date [Sample.booked]).
Proof.
  apply (schedule_dates_distinct Sample.up (SampleList.get 1 (10 * Sample.hour))
           Sample.w1 [Sample.booked]).
  - apply (slot_unique_created Sample.w0 2 1 (10 * Sample.hour)).
    + exact slot_unique_nil.
    + reflexivity.
  - reflexivity.
Defined.

(* ------------------------------------------------------------------ *)
(** ** The requester's list: ordering and pages *)

Section Listing.
Import ApointmentIndex.

Lemma insert_by_date_perm a l : Permutation (insert_by_date a l) (a :: l).
Proof.
  induction l as [|x l IH]; cbn [insert_by_date]; [reflexivity|].
  destruct (Apointment.date a <=? Apointment.date x); [reflexivity|].
  rewrite IH. apply perm_swap.
Qed.

Lemma order_by_date_perm l : Permutation (order_by_date l) l.
Proof.
  induction l as [|x l IH]; cbn [order_by_date fold_right]; [reflexivity|].
  fold (order_by_date l). rewrite insert_by_date_perm, IH. reflexivity.
Qed.

Lemma order_by_date_in a l : In a (order_by_date l) <-> In a l.
Proof.
  split; apply Permutation_in;
    [apply order_by_date_perm|symmetry; apply order_by_date_perm].
Qed.

Lemma insert_by_date_sorted a l :
  StronglySorted by_date l -> StronglySorted by_date (insert_by_date a l).
Proof.
  induction 1 as [|x l Hs IH Hx]; cbn [insert_by_date].
  - repeat constructor.
  - destruct (Z.leb_spec (Apointment.date a) (Apointment.date x)) as [Hle|Hgt].
    + constructor; [constructor; assumption|].
      constructor; [exact Hle|].
      revert Hx. apply Forall_impl. unfold by_date. intros; lia.
    + constructor; [exact IH|].
      eapply Permutation_Forall; [symmetry; apply insert_by_date_perm|].
      constructor; [unfold by_date; lia|exact Hx].
Qed.

Lemma order_by_date_sorted l : StronglySorted by_date (order_by_date l).
Proof.
  induction l as [|x l IH]; cbn [order_by_date fold_right]; [constructor|].
  apply insert_by_date_sorted, IH.
Qed.

Lemma sorted_skipn {A} (R : A -> A -> Prop) n l :
  StronglySorted R l -> StronglySorted R (skipn n l).
Proof.
  revert l. induction n as [|n IH]; intros l Hs; [exact Hs|].
  destruct l as [|x l]; [exact Hs|].
  cbn [skipn]. apply IH. inversion Hs; assumption.
Qed.

Lemma in_firstn {A} n (l : list A) x : In x (firstn n l) -> In x l.
Proof.
  intros H. rewrite <- (firstn_skipn n l). apply in_or_app. left. exact H.
Qed.

Lemma in_skipn {A} n (l : list A) x : In x (skipn n l) -> In x l.
Proof.
  intros H. rewrite <- (firstn_skipn n l). apply in_or_app. right. exact H.
Qed.

Lemma sorted_firstn {A} (R : A -> A -> Prop) n l :
  StronglySorted R l -> StronglySorted R (firstn n l).
Proof.
  revert l. induction n as [|n IH]; intros l Hs; [constructor|].
  destruct l as [|x l]; [constructor|].
  cbn [firstn]. inversion Hs as [|? ? Hl Hx]; subst.
  constructor; [apply IH; exact Hl|].
  rewrite Forall_forall in *. intros y Hy. apply Hx. eapply in_firstn, Hy.
Qed.

Lemma sorted_app {A} (R : A -> A -> Prop) l1 l2 x y :
  StronglySorted R (l1 ++ l2) -> In x l1 -> In y l2 -> R x y.
Proof.
  induction l1 as [|z l1 IH]; intros Hs Hx Hy; [destruct Hx|].
  cbn in Hs. inversion Hs as [|? ? Hl Hz]; subst.
  destruct Hx as [->|Hx]; [|apply IH; assumption].
  rewrite Forall_forall in Hz. apply Hz. apply in_or_app. right. exact Hy.
Qed.

Lemma sorted_map {A B} (f : A -> B) (R : B -> B -> Prop) l :
  StronglySorted (fun a b => R (f a) (f b)) l -> StronglySorted R (map f l).
Proof.
  induction 1 as [|x l Hs IH Hx]; cbn [map]; constructor; [exact IH|].
  rewrite Forall_forall in *. intros y Hy.
  apply in_map_iff in Hy. destruct Hy as (z & <- & Hz). apply Hx, Hz.
Qed.

Lemma to_nat_20 : Z.to_nat 20 = 20%nat.
Proof. reflexivity. Qed.

Lemma page_rows_some req query_page w l :
  page_rows req query_page w = Some l ->
  1 <= page_of query_page
  /\ l = firstn 20 (skipn (Z.to_nat (page_of query_page - 1) * 20) (listed req w)).
Proof.
  unfold page_rows, findAll_page. cbv zeta.
  destruct (Z.ltb_spec ((page_of query_page - 1) * 20) 0) as [|Hge];
    [discriminate|].
  rewrite Z2Nat.inj_mul by lia. rewrite !to_nat_20. unfold listed.
  intros E. split; [lia|congruence].
Qed.

Lemma page_rows_page req page w :
  1 <= page ->
  page_rows req (Some page) w
  = Some (firstn 20 (skipn (Z.to_nat (page - 1) * 20) (listed req w))).
Proof.
  intros Hpage. unfold page_rows, findAll_page, page_of. cbv zeta.
  destruct (Z.ltb_spec ((page - 1) * 20) 0) as [|Hge]; [lia|].
  rewrite Z2Nat.inj_mul by lia. rewrite !to_nat_20. reflexivity.
Qed.

Lemma listed_in req w a :
  In a (listed req w)
  <-> In a (apointments w)
      /\ Apointment.user_id a = userId req
      /\ Apointment.canceled_at a = None.
Proof.
  unfold listed. rewrite order_by_date_in, filter_In. unfold where_.
  rewrite andb_true_iff, Z.eqb_eq, isNull_true. tauto.
Qed.

Lemma page_rows_sound req query_page w l :
  page_rows req query_page w = Some l ->
  (List.length l <= 20)%nat
  /\ StronglySorted by_date l
  /\ forall a, In a l ->
               In a (apointments w)
               /\ Apointment.user_id a = userId req
               /\ Apointment.canceled_at a = None.
Proof.
  intros H. destruct (page_rows_some _ _ _ _ H) as [_ ->].
  split; [rewrite length_firstn; lia|]. split.
  - apply sorted_firstn, sorted_skipn, order_by_date_sorted.
  - intros a Ha. apply listed_in. eapply in_skipn, in_firstn, Ha.
Qed.

Lemma page_rows_covers req w a :
  In a (listed req w) ->
  exists page l,
    1 <= page /\ page_rows req (Some page) w = Some l /\ In a l.
Proof.
  intros Ha. apply In_nth_error in Ha. destruct Ha as [n Hn].
  exists (Z.of_nat (n / 20) + 1). eexists. split; [lia|].
  split; [apply page_rows_page; lia|].
  apply (nth_error_In _ (n mod 20)).
  rewrite nth_error_firstn.
  assert (n mod 20 < 20)%nat as Hlt by (apply Nat.mod_upper_bound; discriminate).
  apply Nat.ltb_lt in Hlt. rewrite Hlt.
  rewrite nth_error_skipn.
  replace (Z.to_nat (Z.of_nat (n / 20) + 1 - 1) * 20 + n mod 20)%nat with n;
    [exact Hn|].
  replace (Z.of_nat (n / 20) + 1 - 1) with (Z.of_nat (n / 20)) by lia.
  rewrite Nat2Z.id. rewrite (Nat.div_mod_eq n 20) at 1. lia.
Qed.
End Listing.

Section ListingPages.
Import ApointmentIndex.

Lemma page_rows_next req page w l l' :
  1 <= page ->
  page_rows req (Some page) w = Some l ->
  page_rows req (Some (page + 1)) w = Some l' ->
  l' <> [] ->
  List.length l = 20%nat
  /\ forall a b, In a l -> In b l' -> by_date a b.
Proof.
  intros Hpage Hl Hl' Hne.
  rewrite page_rows_page in Hl by lia. rewrite page_rows_page in Hl' by lia.
  replace (Z.to_nat (page + 1 - 1) * 20)%nat
    with (20 + Z.to_nat (page - 1) * 20)%nat in Hl' by lia.
  rewrite <- skipn_skipn in Hl'.
  set (M := skipn (Z.to_nat (page - 1) * 20) (listed req w)) in *.
  assert (StronglySorted by_date M) as Hs
      by (apply sorted_skipn, order_by_date_sorted).
  assert (l = firstn 20 M) as -> by congruence.
  assert (l' = firstn 20 (skipn 20 M)) as -> by congruence.
  split.
  - rewrite length_firstn.
    assert (List.length (skipn 20 M) <> 0)%nat as Hlen.
    { destruct (skipn 20 M); [contradiction Hne; reflexivity|cbn; lia]. }
    rewrite length_skipn in Hlen. lia.
  - intros a b Ha Hb. apply in_firstn in Hb.
    rewrite <- (firstn_skipn 20 M) in Hs.
    exact (sorted_app _ _ _ _ _ Hs Ha Hb).
Qed.

Lemma index0_some avatars req query_page w l :
  index0 avatars req query_page w = Some l ->
  exists rows, page_rows req query_page w = Some rows
               /\ l = map (to_item avatars (users w)) rows.
Proof.
  unfold index0. destruct (page_rows req query_page w) as [rows|]; [|discriminate].
  intros E. exists rows. split; [reflexivity|]. cbn in E. congruence.
Qed.

Lemma index_base avatars past_of cancelable_of req query_page w :
  option_map (map base) (index avatars past_of cancelable_of req query_page w)
  = index0 avatars req query_page w.
Proof.
  unfold index, index0. destruct (page_rows req query_page w); [|reflexivity].
  cbn [option_map]. rewrite map_map. reflexivity.
Qed.

Lemma index_some avatars past_of cancelable_of req query_page w l1 :
  index avatars past_of cancelable_of req query_page w = Some l1 ->
  index0 avatars req query_page w = Some (map base l1).
Proof.
  intros H. rewrite <- (index_base avatars past_of cancelable_of), H. reflexivity.
Qed.
End ListingPages.

(** X13: every page of the requester's list, in both controller
    variants, has at most twenty items, is in ascending date order, and
    shows only active appointments that the caller requested, each with
    its own id and date. *)
Theorem index_page_sound avatars past_of cancelable_of req query_page w :
  (forall l,
      ApointmentIndex.index0 avatars req query_page w = Some l ->
      ApointmentIndex.well_listed avatars req w l)
  /\ (forall l1,
         ApointmentIndex.index avatars past_of cancelable_of req query_page w
         = Some l1 ->
         ApointmentIndex.well_listed avatars req w (map ApointmentIndex.base l1)).
Proof.
  assert (forall l,
             ApointmentIndex.index0 avatars req query_page w = Some l ->
             ApointmentIndex.well_listed avatars req w l) as H0.
  { intros l Hl. destruct (index0_some _ _ _ _ _ Hl) as (rows & Hrows & ->).
    destruct (page_rows_sound _ _ _ _ Hrows) as (Hlen & Hsorted & Hin).
    split; [rewrite length_map; exact Hlen|]. split.
    - apply sorted_map. exact Hsorted.
    - intros i Hi. apply in_map_iff in Hi. destruct Hi as (a & <- & Ha).
      exists a. destruct (Hin a Ha) as (? & ? & ?). auto. }
  split; [exact H0|].
  intros l1 Hl1. apply H0. eapply index_some, Hl1.
Qed.

Lemma index_page_sound_witness :
  ApointmentIndex.well_listed SampleList.no_avatar (SampleList.get 2 0) SampleList.w2
    [ApointmentIndex.to_item SampleList.no_avatar (users SampleList.w2) Sample.booked;
     ApointmentIndex.to_item SampleList.no_avatar (users SampleList.w2)
                             SampleList.booked2].
Proof.
  apply (proj1 (index_page_sound SampleList.no_avatar (fun _ => false)
                  (fun _ => true) (SampleList.get 2 0) None SampleList.w2)).
  reflexivity.
Defined.

(** X15: pages follow one another: when the page after [page] shows
    anything, [page] is full with twenty items and none of its items is
    dated after an item of the next page. *)
Theorem index_pages_in_order avatars req page w l l' :
  1 <= page ->
  ApointmentIndex.index0 avatars req (Some page) w = Some l ->
  ApointmentIndex.index0 avatars req (Some (page + 1)) w = Some l' ->
  l' <> [] ->
  List.length l = 20%nat
  /\ forall i j, In i l -> In j l' ->
                 ApointmentIndex.date i <= ApointmentIndex.date j.
Proof.
  intros Hpage Hl Hl' Hne.
  destruct (index0_some _ _ _ _ _ Hl) as (rows & Hrows & ->).
  destruct (index0_some _ _ _ _ _ Hl') as (rows' & Hrows' & ->).
  destruct (page_rows_next req page w rows rows' Hpage Hrows Hrows') as [Hlen Hord].
  { intros ->. apply Hne. reflexivity. }
  split; [rewrite length_map; exact Hlen|].
  intros i j Hi Hj.
  apply in_map_iff in Hi. destruct Hi as (a & <- & Ha).
  apply in_map_iff in Hj. destruct Hj as (b & <- & Hb).
  exact (Hord a b Ha Hb).
Qed.

Lemma index_pages_in_order_witness :
  exists l l',
    ApointmentIndex.index0 SampleList.no_avatar (SampleList.get 2 0) (Some 1)
      SampleList.busy = Some l
    /\ ApointmentIndex.index0 SampleList.no_avatar (SampleList.get 2 0) (Some 2)
         SampleList.busy = Some l'
    /\ map ApointmentIndex.id l' = [1]
    /\ List.length l = 20%nat
    /\ forall i j, In i l -> In j l' ->
                   ApointmentIndex.date i <= ApointmentIndex.date j.
Proof.
  eexists. eexists. split; [reflexivity|]. split; [reflexivity|].
  split; [reflexivity|].
  apply (index_pages_in_order SampleList.no_avatar (SampleList.get 2 0) 1
           SampleList.busy).
  - vm_compute. discriminate.
  - reflexivity.
  - reflexivity.
  - discriminate.
Defined.

(** X16: a cancelled appointment leaves the list: after [delete] has
    answered with the booking, no page of anyone's list shows an item
    with that id. *)
Theorem index_after_cancel
        env req now now' w w' body avatars req2 query_page l i :
  run (ApointmentController.delete env req now now') w = (w', Responded 200 body) ->
  ApointmentIndex.index0 avatars req2 query_page w' = Some l ->
  In i l ->
  ApointmentIndex.id i <> params_id req.
Proof.
  intros Hdel Hl Hi Hid.
  destruct (delete_success _ _ _ _ _ _ _ Hdel) as (_ & b & Hb & _ & Hrows).
  destruct (findByPk_id _ _ _ Hb) as [Hbid _].
  destruct (index0_some _ _ _ _ _ Hl) as (rows & Hpage & ->).
  apply in_map_iff in Hi. destruct Hi as (a & <- & Ha).
  destruct (page_rows_sound _ _ _ _ Hpage) as (_ & _ & Hin).
  destruct (Hin a Ha) as (Hrow & _ & Hactive).
  rewrite Hrows in Hrow. cbn [ApointmentIndex.to_item ApointmentIndex.id] in Hid.
  apply (saved_rows_canceled b now' _ a Hrow); congruence.
Qed.

Lemma index_after_cancel_witness :
  ApointmentIndex.index0 SampleList.no_avatar (SampleList.get 2 0) None SampleList.w3
  = Some [ApointmentIndex.to_item SampleList.no_avatar (users SampleList.w3)
            SampleList.booked2]
  /\ ApointmentIndex.id
       (ApointmentIndex.to_item SampleList.no_avatar (users SampleList.w3)
          SampleList.booked2) <> 1.
Proof.
  split; [reflexivity|].
  apply (index_after_cancel Sample.up (Sample.del 2 1) 0 1
           SampleList.w2 SampleList.w3
           (JLoaded (canceled (users SampleList.w2) Sample.booked 1))
           SampleList.no_avatar (SampleList.get 2 0) None
           [ApointmentIndex.to_item SampleList.no_avatar (users SampleList.w3)
              SampleList.booked2]).
  - reflexivity.
  - reflexivity.
  - left. reflexivity.
Defined.

(* ------------------------------------------------------------------ *)
(** ** What no request does *)

Lemma prefix_refl {A} (l : list A) : exists e, l = l ++ e.
Proof. exists []. rewrite app_nil_r. reflexivity. Qed.

Ltac log_step :=
  split; [first [apply prefix_refl | eexists; reflexivity]
         |split; [first [apply prefix_refl | eexists; reflexivity]
                 |cbn; lia]].

Lemma exec_logs c w :
  (exists ns, notifications (fst (exec c w)) = notifications w ++ ns)
  /\ (exists js, jobs (fst (exec c w)) = jobs w ++ js)
  /\ next_id w <= next_id (fst (exec c w)).
Proof.
  destruct c as [env req now|env req now|env req now now'|env req]; cbn [exec].
  - destruct (body_provider_id req) as [p|] eqn:Hp;
      [|rewrite store_invalid by (left; exact Hp); log_step].
    destruct (body_date req) as [d|] eqn:Hd;
      [|rewrite store_invalid by (right; exact Hd); log_step].
    rewrite (store_unfold env req now w p d Hp Hd).
    destruct (isNull (User.findOne _ _)); [log_step|].
    destruct (strict_neq req p); cbn [negb]; [|log_step].
    destruct (_ <? now); [log_step|].
    destruct (isNull (Apointment.findOne _ _)); [|log_step].
    cbv zeta. unfold store_notify. cbn [with_created users].
    destruct (User.findByPk _ _); [|log_step].
    destruct (notification_up env); log_step.
  - destruct (body_provider_id req) as [p|] eqn:Hp;
      [|rewrite store0_invalid by (left; exact Hp); log_step].
    destruct (body_date req) as [d|] eqn:Hd;
      [|rewrite store0_invalid by (right; exact Hd); log_step].
    rewrite (store0_unfold env req now w p d Hp Hd).
    destruct (isNull (User.findOne _ _)); [log_step|].
    destruct (_ <? now); [log_step|].
    destruct (isNull (Apointment.findOne _ _)); log_step.
  - rewrite delete_unfold.
    destruct (Apointment.findByPk _ _); [|log_step].
    destruct (negb _); [log_step|].
    destruct (_ <? now); [log_step|].
    cbv zeta. destruct (queue_up env); log_step.
  - rewrite index_unfold. destruct (isNull _); log_step.
Qed.

(** X18: over any sequence of requests the users table stays as it was,
    notifications and queued jobs are only ever appended, never removed
    or rewritten, and the primary-key sequence never goes back. *)
Theorem requests_append_only cs w :
  users (execs cs w) = users w
  /\ (exists ns, notifications (execs cs w) = notifications w ++ ns)
  /\ (exists js, jobs (execs cs w) = jobs w ++ js)
  /\ next_id w <= next_id (execs cs w).
Proof.
  split; [apply execs_users|].
  unfold execs. revert w.
  induction cs as [|c cs IH]; intros w; cbn [fold_left].
  - repeat split; [exists []|exists []|lia]; rewrite app_nil_r; reflexivity.
  - destruct (IH (fst (exec c w))) as ((ns & Hn) & (js & Hj) & Hid).
    destruct (exec_logs c w) as ((ns0 & Hn0) & (js0 & Hj0) & Hid0).
    rewrite Hn, Hj, Hn0, Hj0, <- !app_assoc.
    repeat split; eauto; lia.
Qed.

(* ------------------------------------------------------------------ *)
(** ** The requester's list when every query picks its own order *)

Section AnyOrder.
Import ApointmentIndex.

Lemma order_by_date_is_date_order : date_order order_by_date.
Proof.
  intros l. split; [apply order_by_date_perm|apply order_by_date_sorted].
Qed.

(** Rows of pairwise different dates have only one ascending order. *)
Lemma date_order_unique l1 l2 :
  Permutation l1 l2 ->
  StronglySorted by_date l1 ->
  StronglySorted by_date l2 ->
  NoDup (map Apointment.date l1) ->
  l1 = l2.
Proof.
  revert l2. induction l1 as [|x l1 IH]; intros l2 Hperm Hs1 Hs2 Hnd.
  - apply Permutation_nil in Hperm. congruence.
  - destruct l2 as [|y l2];
      [apply Permutation_sym, Permutation_nil in Hperm; discriminate|].
    inversion Hs1 as [|? ? Hs1' Hx]; subst.
    inversion Hs2 as [|? ? Hs2' Hy]; subst.
    inversion Hnd as [|? ? Hnotin Hnd']; subst.
    rewrite Forall_forall in Hx, Hy.
    assert (x = y) as <-.
    { assert (In y (x :: l1)) as Hyin
          by (eapply Permutation_in; [symmetry; exact Hperm|left; reflexivity]).
      assert (In x (y :: l2)) as Hxin
          by (eapply Permutation_in; [exact Hperm|left; reflexivity]).
      destruct Hyin as [Hyx|Hyin]; [exact Hyx|].
      destruct Hxin as [Hxy|Hxin]; [symmetry; exact Hxy|].
      exfalso. apply Hnotin.
      pose proof (Hx y Hyin) as H1. pose proof (Hy x Hxin) as H2.
      unfold by_date in H1, H2.
      replace (Apointment.date x) with (Apointment.date y) by lia.
      apply in_map. exact Hyin. }
    f_equal. apply IH; try assumption.
    eapply Permutation_cons_inv. exact Hperm.
Qed.

(** With pairwise different dates every query returns the rows in the
    one order there is. *)
Lemma page_rows_by_distinct order req query_page w :
  date_order order ->
  NoDup (map Apointment.date (filter (where_ req) (apointments w))) ->
  page_rows_by order req query_page w = page_rows req query_page w.
Proof.
  intros Hord Hnd. unfold page_rows_by, page_rows, findAll_page_by, findAll_page.
  cbv zeta. destruct (_ <? 0); [reflexivity|]. do 3 f_equal.
  destruct (Hord (filter (where_ req) (apointments w))) as [Hp Hs].
  apply date_order_unique.
  - rewrite Hp. symmetry. apply order_by_date_perm.
  - exact Hs.
  - apply order_by_date_sorted.
  - eapply Permutation_NoDup; [|exact Hnd].
    apply Permutation_map. symmetry. exact Hp.
Qed.

Lemma listed_on_some_page order avatars past_of cancelable_of req w a :
  (forall page, date_order (order page)) ->
  NoDup (map Apointment.date (filter (where_ req) (apointments w))) ->
  In a (apointments w) ->
  Apointment.user_id a = userId req ->
  Apointment.canceled_at a = None ->
  exists page,
    1 <= page
    /\ (exists l,
          index0_by (order page) avatars req (Some page) w = Some l
          /\ In (to_item avatars (users w) a) l)
    /\ (exists l1,
          index_by (order page) avatars past_of cancelable_of req (Some page) w
          = Some l1
          /\ In {| past := past_of a; cancelable := cancelable_of a;
                   base := to_item avatars (users w) a |} l1).
Proof.
  intros Hord Hnd Hin Huser Hactive.
  destruct (page_rows_covers req w a) as (page & rows & Hpage & Hrows & Ha).
  { apply listed_in. auto. }
  exists page. split; [exact Hpage|].
  unfold index0_by, index_by.
  rewrite (page_rows_by_distinct (order page) req (Some page) w (Hord page) Hnd).
  rewrite Hrows.
  split; eexists; (split; [reflexivity|]).
  - apply in_map. exact Ha.
  - apply (in_map (fun a0 => {| past := past_of a0; cancelable := cancelable_of a0;
                               base := to_item avatars (users w) a0 |})).
    exact Ha.
Qed.
End AnyOrder.

(** X14: nothing is missing from the list when the caller's active
    appointments have pairwise different dates: whatever ascending order
    each page's query comes back in, every active appointment the caller
    requested is shown on some page, numbered from 1, in both controller
    variants. *)
Theorem index_lists_every_active
        order avatars past_of cancelable_of req w a :
  (forall page, ApointmentIndex.date_order (order page)) ->
  NoDup (map Apointment.date
             (filter (ApointmentIndex.where_ req) (apointments w))) ->
  In a (apointments w) ->
  Apointment.user_id a = userId req ->
  Apointment.canceled_at a = None ->
  exists page,
    1 <= page
    /\ (exists l,
          ApointmentIndex.index0_by (order page) avatars req (Some page) w = Some l
          /\ In (ApointmentIndex.to_item avatars (users w) a) l)
    /\ (exists l1,
          ApointmentIndex.index_by (order page) avatars past_of cancelable_of
            req (Some page) w = Some l1
          /\ In {| ApointmentIndex.past := past_of a;
                   ApointmentIndex.cancelable := cancelable_of a;
                   ApointmentIndex.base :=
                     ApointmentIndex.to_item avatars (users w) a |} l1).
Proof. apply listed_on_some_page. Qed.

Lemma index_lists_every_active_witness :
  exists page,
    1 <= page
    /\ (exists l,
          ApointmentIndex.index0_by ApointmentIndex.order_by_date
            SampleList.no_avatar (SampleList.get 2 0) (Some page) SampleList.w2
          = Some l
          /\ In (ApointmentIndex.to_item SampleList.no_avatar (users SampleList.w2)
                   SampleList.booked2) l)
    /\ (exists l1,
          ApointmentIndex.index_by ApointmentIndex.order_by_date
            SampleList.no_avatar (fun _ => false) (fun _ => true)
            (SampleList.get 2 0) (Some page) SampleList.w2 = Some l1
          /\ In {| ApointmentIndex.past := false;
                   ApointmentIndex.cancelable := true;
                   ApointmentIndex.base :=
                     ApointmentIndex.to_item SampleList.no_avatar
                       (users SampleList.w2) SampleList.booked2 |} l1).
Proof.
  apply (index_lists_every_active (fun _ => ApointmentIndex.order_by_date)
           SampleList.no_avatar (fun _ => false) (fun _ => true)
           (SampleList.get 2 0) SampleList.w2 SampleList.booked2).
  - intros page. exact order_by_date_is_date_order.
  - vm_compute. constructor; [intros [H|[]]; discriminate|].
    constructor; [intros []|constructor].
  - right. left. reflexivity.
  - reflexivity.
  - reflexivity.
Defined.

Lemma provider_found_by_pk p us :
  User.findOne (provider_where p) us <> None -> User.findByPk p us <> None.
Proof.
  unfold User.findOne, User.findByPk, provider_where.
  induction us as [|u us IH]; cbn [find]; [congruence|].
  destruct (User.id u =? p); cbn [andb]; [discriminate|exact IH].
Qed.

(** X17: a booking just made is on the requester's list: after [store]
    has answered with a booking, and when the requester's active
    appointments have pairwise different dates, some page of the
    requester's list shows the booking, with its provider, whatever
    ascending order each page's query comes back in. *)
Theorem index_after_store env req now w w1 a order avatars req2 :
  run (ApointmentController.store env req now) w = (w1, Responded 200 (JApointment a)) ->
  userId req2 = userId req ->
  (forall page, ApointmentIndex.date_order (order page)) ->
  NoDup (map Apointment.date
             (filter (ApointmentIndex.where_ req2) (apointments w1))) ->
  exists page l,
    1 <= page
    /\ ApointmentIndex.index0_by (order page) avatars req2 (Some page) w1 = Some l
    /\ In (ApointmentIndex.to_item avatars (users w1) a) l
    /\ ApointmentIndex.provider (ApointmentIndex.to_item avatars (users w1) a)
       <> None.
Proof.
  intros Hrun Huser Hord Hnd.
  destruct (store_success _ _ _ _ _ _ Hrun) as (Hacc & p & d & Hp & Hd & Hb & Hrows).
  injection Hb as ->.
  destruct (listed_on_some_page order avatars (fun _ => false) (fun _ => false)
              req2 w1
              (created w (userId req) p (DateFns.startOfHour (tz env) d))
              Hord Hnd)
    as (page & Hpage & (l & Hl & Hin) & _).
  - rewrite Hrows. apply in_or_app. right. left. reflexivity.
  - rewrite Huser. reflexivity.
  - reflexivity.
  - exists page, l. repeat split; try assumption.
    cbn [ApointmentIndex.to_item ApointmentIndex.provider created
           Apointment.provider_id].
    unfold ApointmentIndex.include_provider, created. cbn [Apointment.provider_id].
    replace (users w1) with (users (fst (exec (Store env req now) w)))
      by (cbn [exec]; rewrite Hrun; reflexivity).
    rewrite exec_users.
    unfold store_accepts in Hacc. rewrite Hp, Hd in Hacc. cbv zeta in Hacc.
    rewrite !andb_true_iff, !negb_true_iff in Hacc.
    destruct Hacc as [[[Hprov _] _] _]. apply isNull_false in Hprov.
    apply provider_found_by_pk in Hprov.
    destruct (User.findByPk p (users w)); [cbn; discriminate|congruence].
Qed.

Lemma index_after_store_witness :
  exists page l,
    1 <= page
    /\ ApointmentIndex.index0_by ApointmentIndex.order_by_date SampleList.no_avatar
         (SampleList.get 2 0) (Some page) Sample.w1 = Some l
    /\ In (ApointmentIndex.to_item SampleList.no_avatar (users Sample.w1)
             Sample.booked) l
    /\ ApointmentIndex.provider
         (ApointmentIndex.to_item SampleList.no_avatar (users Sample.w1)
            Sample.booked) <> None.
Proof.
  apply (index_after_store Sample.up (Sample.post 2 1 (10 * Sample.hour + 300000)) 0
           Sample.w0 Sample.w1 Sample.booked (fun _ => ApointmentIndex.order_by_date)
           SampleList.no_avatar (SampleList.get 2 0)).
  - reflexivity.
  - reflexivity.
  - intros page. exact order_by_date_is_date_order.
  - vm_compute. constructor; [intros []|constructor].
Defined.
